(** * SimPEG.data: the [Data] and [SyntheticData] containers

    A shallow embedding of [SimPEG/data.py].  A [Data] object stores the
    observed data of a survey as a flat float vector together with a relative
    standard deviation and an absolute noise floor, and maps every
    (source, receiver) pair of the survey to a run of indices of that vector.

    - Python floats and the entries of NumPy [float64] arrays are Rocq's
      primitive binary64 floats, so the arithmetic of the source
      ([np.nan * np.ones(n)], [value * np.ones(n)], [np.absolute], [+]) is
      the IEEE arithmetic it runs on.
    - An attribute assignment [obj.name = value] of the [properties] package
      runs the property's own [validate], then the class validators
      registered for [name] on a mutable [change] record, and stores
      [change.value] only when none of them raised.
    - Methods are computations in a state-and-exception monad over the
      object; [warnings.warn] appends to a log that is kept apart from the
      exception channel. *)

From Stdlib Require Import ZArith Floats Bool Lia.
From stdpp Require Import gmap strings list fin_maps.

Local Open Scope Z_scope.
Local Open Scope nat_scope.

(** ** Python values, exceptions and warnings *)

(** A one-dimensional [float64] array.  [properties.Array] accepts an
    array of integer dtype as well and keeps it as it is; such arrays, in
    which NumPy truncates a float written through an index, are not
    modelled. *)
Abbreviation ndarray := (list float).

(** The values a caller assigns to the array properties: an [int], a [float]
    or a one-dimensional array of floats. *)
Inductive PyVal : Type :=
| PyInt (z : Z)
| PyFloat (f : float)
| PyArray (a : ndarray).

(** The exceptions the module can raise, directly or through Python, NumPy
    and [properties].  [ValueError_length] is the one [_dobs_validator]
    raises; its three arguments are the three values its message formats:
    the field name, the length received and the length the survey expects. *)
Inductive PyExc : Type :=
| ValueError_length (name : string) (received expected : nat)
| ValueError_broadcast (received expected : nat)
| AttributeError (attr : string)
| Exception (msg : string)
| KeyError
| IndexError
| TypeError (msg : string)
| OverflowError
| ValidationError (name : string).

Inductive result (A : Type) : Type :=
| Ok (a : A)
| Raise (e : PyExc).
Arguments Ok {A} a.
Arguments Raise {A} e.

Global Instance result_ret : MRet result := λ A a, Ok a.
Global Instance result_bind : MBind result := λ A B f r,
  match r with
  | Ok a => f a
  | Raise e => Raise e
  end.

(** What [warnings.warn(msg)] records.  The log holds the warnings this
    module issues itself; a [RuntimeWarning] that NumPy may issue inside an
    arithmetic operation (an overflow, [inf * 0]) is not followed. *)
Inductive Warning : Type :=
| UserWarning (msg : string).

(** [float(value)] for a Python [int]: the nearest binary64 value, ties to
    even, and [OverflowError] when that value is not finite. *)
Definition py_float (z : Z) : result float :=
  match binary_normalize prec emax z 0%Z false with
  | S754_infinity _ => Raise OverflowError
  | sf => Ok (SF2Prim sf)
  end.

(** [len(value)]. *)
Definition py_len (v : PyVal) : result nat :=
  match v with
  | PyArray a => Ok (length a)
  | PyInt _ => Raise (TypeError "object of type 'int' has no len()")
  | PyFloat _ => Raise (TypeError "object of type 'float' has no len()")
  end.

(** ** The NumPy operations the module uses *)

Definition np_zeros (n : nat) : ndarray := replicate n PrimFloat.zero.
Definition np_ones (n : nat) : ndarray := replicate n PrimFloat.one.
Definition np_absolute (a : ndarray) : ndarray := PrimFloat.abs <$> a.

(** Equality of array entries as values: IEEE equality, which identifies
    the two zeros, extended to hold between two NaNs (the comparison of
    [np.testing.assert_array_equal]). *)
Definition float_same (x y : float) : bool :=
  PrimFloat.eqb x y || (PrimFloat.is_nan x && PrimFloat.is_nan y).

(** [s * a] for a Python float [s]. *)
Definition np_scale (s : float) (a : ndarray) : ndarray := PrimFloat.mul s <$> a.

(** [np.arange(lo, hi)]. *)
Definition np_arange (lo hi : nat) : list nat := seq lo (hi - lo).

(** An element-wise binary operator on two one-dimensional arrays, with
    NumPy's broadcasting: equal lengths, or one operand of length one. *)
Definition np_binop (f : float → float → float) (a b : ndarray) : result ndarray :=
  if decide (length a = length b) then Ok (zip_with f a b)
  else match a, b with
       | [x], _ => Ok (f x <$> b)
       | _, [y] => Ok ((λ x, f x y) <$> a)
       | _, _ => Raise (ValueError_broadcast (length a) (length b))
       end.

Definition np_add : ndarray → ndarray → result ndarray := np_binop PrimFloat.add.
Definition np_multiply : ndarray → ndarray → result ndarray := np_binop PrimFloat.mul.

(** [a[index]] for an integer index array. *)
Definition np_getitem (a : ndarray) (index : list nat) : result ndarray :=
  match mapM (λ i, a !! i) index with
  | Some v => Ok v
  | None => Raise IndexError
  end.

(** The values written by [a[index] = value]: [value] broadcast to the shape
    of the index array. *)
Definition np_broadcast_to (value : PyVal) (n : nat) : result ndarray :=
  match value with
  | PyFloat f => Ok (replicate n f)
  | PyInt z => f ← py_float z; Ok (replicate n f)
  | PyArray v =>
      if decide (length v = n) then Ok v
      else match v with
           | [x] => Ok (replicate n x)
           | _ => Raise (ValueError_broadcast (length v) n)
           end
  end.

(** [a[index] = value] for an integer index array: the array keeps its
    length, position [index[k]] receives the [k]-th broadcast value. *)
Definition np_setitem (a : ndarray) (index : list nat) (value : PyVal) : result ndarray :=
  vals ← np_broadcast_to value (length index);
  if forallb (λ i, bool_decide (i < length a)) index
  then Ok (foldl (λ acc iv, <[iv.1 := iv.2]> acc) a (zip index vals))
  else Raise IndexError.

(** ** The survey *)

(** Modelled from the spec: the survey classes live in [SimPEG/survey.py],
    outside this module.  A survey is an ordered list of sources, a source an
    ordered list of receivers, a receiver has a datum count [nD], and
    [survey.nD] is the sum of the receivers' counts over all sources.
    Sources and receivers are Python objects used as dictionary keys; the
    [src_id] and [rx_id] stand for their identity. *)
Record Receiver : Type := { rx_id : nat; rx_nD : nat }.
Record Source : Type := { src_id : nat; receiver_list : list Receiver }.
Record Survey : Type := { source_list : list Source }.

Definition src_nD (src : Source) : nat := sum_list (rx_nD <$> receiver_list src).
Definition survey_nD (sv : Survey) : nat := sum_list (src_nD <$> source_list sv).

(** The survey in which (source, receiver) identity names one position of
    the walk, as a lookup by (source, receiver) presupposes: no object occurs
    twice in the source list, nor twice in the receiver list of one source.
    One receiver object may still serve several sources. *)
Definition unique_keys (sv : Survey) : Prop :=
  NoDup (src_id <$> source_list sv) ∧
  Forall (λ src, NoDup (rx_id <$> receiver_list src)) (source_list sv).

Global Instance unique_keys_dec (sv : Survey) : Decision (unique_keys sv).
Proof. unfold unique_keys. apply _. Defined.

(** ** Objects and methods *)

(** [{src: {rx: indices}}]. *)
Abbreviation IndexDict := (gmap nat (gmap nat (list nat))).

(** The attributes of a [Data] object; [None] is an attribute that was never
    assigned. *)
Record Data : Type := mkData {
  survey : option Survey;
  dobs : option ndarray;
  standard_deviation : option ndarray;
  noise_floor : option ndarray;
  _index_dict : option IndexDict
}.

(** A method of an object of class [S] returning an [A]: it reads and
    updates the object and the warning log, and returns or raises. *)
Definition M (S A : Type) : Type := S → list Warning → result A * S * list Warning.

Global Instance M_ret {S} : MRet (M S) := λ A a self log, (Ok a, self, log).
Global Instance M_bind {S} : MBind (M S) := λ A B f m self log,
  match m self log with
  | (Ok a, self', log') => f a self' log'
  | (Raise e, self', log') => (Raise e, self', log')
  end.

Definition raise {S A} (e : PyExc) : M S A := λ self log, (Raise e, self, log).
Definition get_self {S} : M S S := λ self log, (Ok self, self, log).
Definition put_self {S} (self' : S) : M S unit := λ _ log, (Ok tt, self', log).
Definition warn {S} (msg : string) : M S unit :=
  λ self log, (Ok tt, self, log ++ [UserWarning msg]).
Definition lift {S A} (r : result A) : M S A := λ self log, (r, self, log).

(** Reading an attribute the class does not define: there is no object to
    return, and so none to assign an attribute of. *)
Definition getattr_undefined {S} (attr : string) : M S Empty_set :=
  raise (AttributeError attr).
Definition setattr_of {S} (target : Empty_set) (attr : string) (v : list float) : M S unit :=
  match target with end.

(** The [change] dictionary a class validator receives. *)
Record change : Type := mkChange { name : string; value : PyVal }.

(** *** Property validation *)

(** [properties.Array.validate], which the [dobs] and [dclean] properties
    use as it is: a list, tuple or array becomes an array of shape [('*',)],
    anything else is refused by the package. *)
Definition Array_validate (name : string) (v : PyVal) : result PyVal :=
  match v with
  | PyArray a => Ok (PyArray a)
  | _ => Raise (ValidationError name)
  end.

(** [UncertaintyArray.validate]: an [int] becomes a [float], a [float] is
    kept, and any other value goes to the [validate] above [properties.Array]
    in the class hierarchy, which returns it as it is. *)
Definition UncertaintyArray_validate (v : PyVal) : result PyVal :=
  match v with
  | PyInt z => f ← py_float z; Ok (PyFloat f)
  | PyFloat f => Ok (PyFloat f)
  | _ => Ok v
  end.

(** The array a validated value is stored as. *)
Definition as_array {S} (v : PyVal) : M S ndarray :=
  match v with
  | PyArray a => mret a
  | _ => raise (TypeError "not an array")
  end.

(** *** class Data *)

Definition with_survey (self : Data) (sv : Survey) : Data :=
  mkData (Some sv) (dobs self) (standard_deviation self) (noise_floor self) (_index_dict self).
Definition with_dobs (self : Data) (a : ndarray) : Data :=
  mkData (survey self) (Some a) (standard_deviation self) (noise_floor self) (_index_dict self).
Definition with_standard_deviation (self : Data) (a : ndarray) : Data :=
  mkData (survey self) (dobs self) (Some a) (noise_floor self) (_index_dict self).
Definition with_noise_floor (self : Data) (a : ndarray) : Data :=
  mkData (survey self) (dobs self) (standard_deviation self) (Some a) (_index_dict self).
Definition with_index_dict (self : Data) (d : IndexDict) : Data :=
  mkData (survey self) (dobs self) (standard_deviation self) (noise_floor self) (Some d).

(** [self.survey.nD]. *)
Definition self_survey_nD : M Data nat :=
  self ← get_self;
  match survey self with
  | Some sv => mret (survey_nD sv)
  | None => raise (AttributeError "nD")
  end.

(** The [nD] property: [len(self.dobs)]. *)
Definition nD : M Data nat :=
  self ← get_self;
  match dobs self with
  | Some a => mret (length a)
  | None => raise (TypeError "object of type 'NoneType' has no len()")
  end.

Definition _dobs_validator (ch : change) : M Data unit :=
  n ← self_survey_nD;
  l ← lift (py_len (value ch));
  if decide (n ≠ l)
  then raise (ValueError_length (name ch) l n)
  else mret tt.

(** The validator rewrites [change['value']]; the record it returns is the
    dictionary after the call. *)
Definition _uncertainty_validator (ch : change) : M Data change :=
  ch ← match value ch with
       | PyFloat f => n ← nD; mret (mkChange (name ch) (PyArray (np_scale f (np_ones n))))
       | _ => mret ch
       end;
  _ ← _dobs_validator ch;
  mret ch.

(** [self.survey = survey]. *)
Definition set_survey (sv : Survey) : M Data unit :=
  self ← get_self; put_self (with_survey self sv).

(** [self.dobs = value]. *)
Definition set_dobs (v : PyVal) : M Data unit :=
  v ← lift (Array_validate "dobs" v);
  _ ← _dobs_validator (mkChange "dobs" v);
  a ← as_array v;
  self ← get_self; put_self (with_dobs self a).

(** [self.standard_deviation = value]. *)
Definition set_standard_deviation (v : PyVal) : M Data unit :=
  v ← lift (UncertaintyArray_validate v);
  ch ← _uncertainty_validator (mkChange "standard_deviation" v);
  a ← as_array (value ch);
  self ← get_self; put_self (with_standard_deviation self a).

(** [self.noise_floor = value]. *)
Definition set_noise_floor (v : PyVal) : M Data unit :=
  v ← lift (UncertaintyArray_validate v);
  ch ← _uncertainty_validator (mkChange "noise_floor" v);
  a ← as_array (value ch);
  self ← get_self; put_self (with_noise_floor self a).

(** The object before [__init__] has assigned anything. *)
Definition blank : Data := mkData None None None None None.

Definition __init__ (sv : Survey) (dobs standard_deviation noise_floor : option PyVal)
  : M Data unit :=
  _ ← set_survey sv;
  _ ← set_dobs (default (PyArray (np_scale PrimFloat.nan (np_ones (survey_nD sv)))) dobs);
  _ ← set_standard_deviation (default (PyArray (np_zeros (survey_nD sv))) standard_deviation);
  set_noise_floor (default (PyArray (np_zeros (survey_nD sv))) noise_floor).

(** The [uncertainty] property. *)
Definition uncertainty : M Data ndarray :=
  self ← get_self;
  match standard_deviation self, noise_floor self with
  | None, None =>
      raise (Exception "The standard_deviation and / or noise_floor must be set before asking for uncertainties. Alternatively, the uncertainty can be set directly")
  | _, _ =>
      n ← nD;
      let uncert := np_zeros n in
      uncert ← match standard_deviation self with
               | Some sd =>
                   d ← match dobs self with
                       | Some d => mret d
                       | None => raise (TypeError "bad operand type for abs(): 'NoneType'")
                       end;
                   p ← lift (np_multiply sd (np_absolute d));
                   lift (np_add uncert p)
               | None => mret uncert
               end;
      uncert ← match noise_floor self with
               | Some nf => lift (np_add uncert nf)
               | None => mret uncert
               end;
      mret uncert
  end.

(** The [uncertainty] setter.  Its first statement assigns to
    [self.self.standard_deviation]: the right-hand side [np.zeros(self.nD)]
    is evaluated, then the target object [self.self] is looked up. *)
Definition uncertainty_setter (value : PyVal) : M Data unit :=
  n ← nD;
  let zeros := np_zeros n in
  target ← getattr_undefined "self";
  _ ← setattr_of target "standard_deviation" zeros;
  set_noise_floor value.

(** The loops of [index_dict]: every source gets an empty dictionary, then
    the sources and their receivers are walked with the two counters
    [indBot] and [indTop]. *)
Definition index_rx_step (src : Source) (st : nat * nat * IndexDict) (rx : Receiver)
  : nat * nat * IndexDict :=
  let '(indBot, indTop, d) := st in
  let indTop := indTop + rx_nD rx in
  let d := alter (λ inner, <[rx_id rx := np_arange indBot indTop]> inner) (src_id src) d in
  let indBot := indBot + rx_nD rx in
  (indBot, indTop, d).

Definition index_src_step (st : nat * nat * IndexDict) (src : Source)
  : nat * nat * IndexDict :=
  foldl (index_rx_step src) st (receiver_list src).

Definition build_index_dict (sv : Survey) : IndexDict :=
  let d := foldl (λ d src, <[src_id src := ∅]> d) ∅ (source_list sv) in
  (foldl index_src_step (0, 0, d) (source_list sv)).2.

(** The [index_dict] property, cached in [_index_dict]. *)
Definition index_dict : M Data IndexDict :=
  self ← get_self;
  match _index_dict self with
  | Some d => mret d
  | None =>
      match survey self with
      | None =>
          raise (Exception "To set or get values by source-receiver pairs, a survey must first be set. `data.survey = survey`")
      | Some sv =>
          let d := build_index_dict sv in
          _ ← put_self (with_index_dict self d);
          mret d
      end
  end.

(** [d[src][rx]] on the index dictionary. *)
Definition index_lookup {S} (d : IndexDict) (src : Source) (rx : Receiver) : M S (list nat) :=
  match d !! src_id src with
  | None => raise KeyError
  | Some inner =>
      match inner !! rx_id rx with
      | None => raise KeyError
      | Some index => mret index
      end
  end.

(** [self.dobs[index] = value]: the stored array is written in place.
    Arrays are held by value here, so the write is the replacement of the
    field; in the code an attribute that was assigned the very same array
    object changes with it, which this model does not follow. *)
Definition dobs_setitem (index : list nat) (value : PyVal) : M Data unit :=
  self ← get_self;
  match dobs self with
  | None => raise (TypeError "'NoneType' object does not support item assignment")
  | Some a =>
      a' ← lift (np_setitem a index value);
      put_self (with_dobs self a')
  end.

(** [self.dobs[index]]. *)
Definition dobs_getitem (index : list nat) : M Data ndarray :=
  self ← get_self;
  match dobs self with
  | None => raise (TypeError "'NoneType' object is not subscriptable")
  | Some a => lift (np_getitem a index)
  end.

(** *** Deprecated members *)

Definition std_msg : string :=
  "std has been depreciated in favor of standard_deviation. Please update your code to use 'standard_deviation'".
Definition eps_msg : string :=
  "eps has been depreciated in favor of noise_floor. Please update your code to use 'noise_floor'".
Definition setitem_msg : string :=
  "Treating the data object as a dictionary has been depreciated in in favor of working with the index_dict. Please update your code to use index = data.index_dict[src][rx]; data.dobs[index] = datum".
Definition getitem_msg : string :=
  "Treating the data object as a dictionary has been depreciated in in favor of working with the index_dict. Please update your code to use index = data.index_dict[src][rx]; datum = data.dobs[index]".
Definition tovec_msg : string :=
  "data.tovec is no longer necessary. Please update your code to call data.dobs directly.".

Definition std : M Data (option ndarray) :=
  _ ← warn std_msg; self ← get_self; mret (standard_deviation self).
Definition std_setter (v : PyVal) : M Data unit :=
  _ ← warn std_msg; set_standard_deviation v.
Definition eps : M Data (option ndarray) :=
  _ ← warn eps_msg; self ← get_self; mret (noise_floor self).
Definition eps_setter (v : PyVal) : M Data unit :=
  _ ← warn eps_msg; set_noise_floor v.

Definition __setitem__ (key : Source * Receiver) (value : PyVal) : M Data unit :=
  _ ← warn setitem_msg;
  d ← index_dict;
  index ← index_lookup d key.1 key.2;
  dobs_setitem index value.

Definition __getitem__ (key : Source * Receiver) : M Data ndarray :=
  _ ← warn getitem_msg;
  d ← index_dict;
  index ← index_lookup d key.1 key.2;
  dobs_getitem index.

Definition tovec : M Data (option ndarray) :=
  _ ← warn tovec_msg; self ← get_self; mret (dobs self).

Definition fromvec (v : PyVal) : M Data unit :=
  raise (Exception "fromvec has been depreciated. Please use the index_dict to interact with the data as a dictionary").

(** The access the deprecation notices point to, as the docstrings write
    it: [index = data.index_dict[src][rx]] followed by
    [data.dobs[index] = datum], respectively [datum = data.dobs[index]]. *)
Definition index_range_write (src : Source) (rx : Receiver) (datum : PyVal) : M Data unit :=
  d ← index_dict;
  index ← index_lookup d src rx;
  dobs_setitem index datum.

Definition index_range_read (src : Source) (rx : Receiver) : M Data ndarray :=
  d ← index_dict;
  index ← index_lookup d src rx;
  dobs_getitem index.

(** *** class SyntheticData(Data) *)

Record SyntheticData : Type := mkSyntheticData {
  base : Data;
  dclean : option ndarray
}.

(** A method inherited from [Data], run on the [Data] part of the object. *)
Definition inherited {A} (m : M Data A) : M SyntheticData A := λ self log,
  match m (base self) log with
  | (r, b, log') => (r, mkSyntheticData b (dclean self), log')
  end.

Definition _dclean_validator (ch : change) : M SyntheticData unit :=
  inherited (_dobs_validator ch).

(** [self.dclean = value]. *)
Definition set_dclean (v : PyVal) : M SyntheticData unit :=
  v ← lift (Array_validate "dclean" v);
  _ ← _dclean_validator (mkChange "dclean" v);
  a ← as_array v;
  self ← get_self; put_self (mkSyntheticData (base self) (Some a)).

Definition SyntheticData_init (sv : Survey)
  (dobs dclean standard_deviation noise_floor : option PyVal) : M SyntheticData unit :=
  _ ← inherited (__init__ sv dobs standard_deviation noise_floor);
  n ← inherited self_survey_nD;
  set_dclean (default (PyArray (np_scale PrimFloat.nan (np_ones n))) dclean).

Definition blank_synthetic : SyntheticData := mkSyntheticData blank None.

(** ** The fresh object, as the specification words it *)

(** A [Data] with [n] missing-value sentinels as [dobs] and [n] zeros as
    [standard_deviation] and as [noise_floor], [n] being the survey's datum
    count. *)
Definition fresh (sv : Survey) : Data :=
  mkData (Some sv) (Some (replicate (survey_nD sv) PrimFloat.nan))
    (Some (replicate (survey_nD sv) PrimFloat.zero))
    (Some (replicate (survey_nD sv) PrimFloat.zero)) None.

(** ** The uncertainty formula, as the specification words it *)

(** [standard_deviation * abs(dobs) + noise_floor], entry by entry. *)
Definition uncertainty_formula (sd d nf : ndarray) : ndarray :=
  zip_with PrimFloat.add (zip_with PrimFloat.mul sd (PrimFloat.abs <$> d)) nf.

(** ** Index ranges, as the specification words them *)

(** The (source, receiver) pairs of a survey in the order of the walk:
    sources in order, receivers in order within each source. *)
Definition keys_of (ss : list Source) : list (Source * Receiver) :=
  src ← ss; pair src <$> receiver_list src.
Definition walk_keys (sv : Survey) : list (Source * Receiver) :=
  keys_of (source_list sv).

(** [d[src][rx]], when both keys are there. *)
Definition dict_range (d : IndexDict) (key : Source * Receiver) : option (list nat) :=
  inner ← d !! src_id key.1; inner !! rx_id key.2.

(** Consecutive runs of indices: starting at [off], one run per count, each
    beginning where the one before ends. *)
Fixpoint ranges_from (off : nat) (counts : list nat) : list (list nat) :=
  match counts with
  | [] => []
  | n :: counts => seq off n :: ranges_from (off + n) counts
  end.

(** The first index of the run of the [i]-th pair of the walk. *)
Definition offset_of (sv : Survey) (i : nat) : nat :=
  sum_list (take i ((rx_nD ∘ snd) <$> walk_keys sv)).

(** A method that neither reads nor writes the warning log: run with any
    log, it does what it does with the empty one and hands the log back. *)
Definition silent {S A} (m : M S A) : Prop :=
  ∀ self log, m self log = let '(r, self', _) := m self [] in (r, self', log).

(** ** The example survey of the specification

    Sources [[s1, s2]]; [s1] has receivers [[r1(nD=2), r2(nD=3)]] and [s2]
    has [[r3(nD=1)]]. *)
Module Example.
Definition r1 : Receiver := {| rx_id := 1; rx_nD := 2 |}.
Definition r2 : Receiver := {| rx_id := 2; rx_nD := 3 |}.
Definition r3 : Receiver := {| rx_id := 3; rx_nD := 1 |}.
Definition s1 : Source := {| src_id := 1; receiver_list := [r1; r2] |}.
Definition s2 : Source := {| src_id := 2; receiver_list := [r3] |}.
Definition survey6 : Survey := {| source_list := [s1; s2] |}.

(** A survey that lists the source [s2] twice. *)
Definition survey_twice : Survey := {| source_list := [s2; s2] |}.

(** A survey with the source [s2] alone: one datum, no key repeated. *)
Definition survey_last : Survey := {| source_list := [s2] |}.

(** [Data(survey6)], as [__init__] leaves it. *)
Definition data6 : Data :=
  mkData (Some survey6) (Some (replicate 6 PrimFloat.nan))
    (Some (replicate 6 PrimFloat.zero)) (Some (replicate 6 PrimFloat.zero)) None.
End Example.

(** ** The class invariant and sequences of calls *)

(** The survey is attached and [dobs], [standard_deviation] and
    [noise_floor] are set, each with [survey.nD] entries. *)
Definition consistent (d : Data) : Prop :=
  match survey d, dobs d, standard_deviation d, noise_floor d with
  | Some sv, Some a, Some sd, Some nf =>
      length a = survey_nD sv ∧ length sd = survey_nD sv ∧ length nf = survey_nD sv
  | _, _, _, _ => False
  end.

Global Instance consistent_dec (d : Data) : Decision (consistent d).
Proof. unfold consistent. repeat case_match; apply _. Defined.

(** A use of the public surface of a [Data] object, the reassignment of
    [survey] apart. *)
Inductive call : Type :=
| Assign_dobs (v : PyVal)
| Assign_standard_deviation (v : PyVal)
| Assign_noise_floor (v : PyVal)
| Read_uncertainty
| Assign_uncertainty (v : PyVal)
| Read_nD
| Read_index_dict
| Assign_std (v : PyVal)
| Read_std
| Assign_eps (v : PyVal)
| Read_eps
| Set_item (key : Source * Receiver) (v : PyVal)
| Get_item (key : Source * Receiver)
| Call_tovec
| Call_fromvec (v : PyVal).

(** The object and the log a method leaves, whether it returned or raised
    (the caller catches the exception and goes on). *)
Definition left_by {A} (m : M Data A) (st : Data * list Warning) : Data * list Warning :=
  let '(_, d, log) := m st.1 st.2 in (d, log).

Definition do_call (c : call) : Data * list Warning → Data * list Warning :=
  match c with
  | Assign_dobs v => left_by (set_dobs v)
  | Assign_standard_deviation v => left_by (set_standard_deviation v)
  | Assign_noise_floor v => left_by (set_noise_floor v)
  | Read_uncertainty => left_by uncertainty
  | Assign_uncertainty v => left_by (uncertainty_setter v)
  | Read_nD => left_by nD
  | Read_index_dict => left_by index_dict
  | Assign_std v => left_by (std_setter v)
  | Read_std => left_by std
  | Assign_eps v => left_by (eps_setter v)
  | Read_eps => left_by eps
  | Set_item key v => left_by (__setitem__ key v)
  | Get_item key => left_by (__getitem__ key)
  | Call_tovec => left_by tovec
  | Call_fromvec v => left_by (fromvec v)
  end.

Definition do_calls (cs : list call) (st : Data * list Warning) : Data * list Warning :=
  foldl (λ st c, do_call c st) st cs.

(** The four data attributes as far as consistency looks at them. *)
Definition same_shape (d self : Data) : Prop :=
  survey d = survey self ∧
  length <$> dobs d = length <$> dobs self ∧
  length <$> standard_deviation d = length <$> standard_deviation self ∧
  length <$> noise_floor d = length <$> noise_floor self.

(** The four data attributes; the cache is not among them. *)
Definition same_data (d self : Data) : Prop :=
  survey d = survey self ∧ dobs d = dobs self ∧
  standard_deviation d = standard_deviation self ∧
  noise_floor d = noise_floor self.

(** The warning a call emits: the deprecated members warn, once, before
    anything else; no other member warns. *)
Definition notice (c : call) : list Warning :=
  match c with
  | Assign_std _ | Read_std => [UserWarning std_msg]
  | Assign_eps _ | Read_eps => [UserWarning eps_msg]
  | Set_item _ _ => [UserWarning setitem_msg]
  | Get_item _ => [UserWarning getitem_msg]
  | Call_tovec => [UserWarning tovec_msg]
  | _ => []
  end.

(** The calls that can store a new value in [dobs], [standard_deviation] or
    [noise_floor]. *)
Definition writes_data (c : call) : bool :=
  match c with
  | Assign_dobs _ | Assign_standard_deviation _ | Assign_noise_floor _
  | Assign_std _ | Assign_eps _ | Set_item _ _ => true
  | _ => false
  end.

(** * Binary64 facts *)

Section Binary64.

Lemma Prim2SF_one : Prim2SF PrimFloat.one = S754_finite false 4503599627370496 (-52).
Proof. vm_compute. reflexivity. Qed.

Lemma digits2_pos_shift52 (m : positive) :
  Z.pos (digits2_pos (m * 4503599627370496)) = (Z.pos (digits2_pos m) + 52)%Z.
Proof.
  rewrite !Pos.mul_xO_r, Pos.mul_1_r. cbn [digits2_pos].
  rewrite !Pos2Z.inj_succ. lia.
Qed.

Lemma shr_52_exact (m : positive) :
  SpecFloat.iter_pos shr_1 52
    {| shr_m := Z.pos (m * 4503599627370496); shr_r := false; shr_s := false |}
  = {| shr_m := Z.pos m; shr_r := false; shr_s := false |}.
Proof. rewrite !Pos.mul_xO_r, Pos.mul_1_r. reflexivity. Qed.

(** Rounding [m * 2^52 * 2^(e-52)] gives back the canonical [m * 2^e]. *)
Lemma round_times_one (s : bool) (m : positive) (e : Z) :
  bounded prec emax m e = true →
  binary_round_aux prec emax s (Z.pos (m * 4503599627370496)) (e + -52) loc_Exact
  = S754_finite s m e.
Proof.
  unfold bounded, canonical_mantissa. intros [Hc He]%andb_true_iff.
  apply Z.eqb_eq in Hc.
  unfold binary_round_aux, shr_fexp.
  cbn [Zdigits2 shr_record_of_loc].
  rewrite digits2_pos_shift52.
  replace (Z.pos (digits2_pos m) + 52 + (e + -52))%Z
    with (Z.pos (digits2_pos m) + e)%Z by lia.
  rewrite Hc.
  replace (e - (e + -52))%Z with 52%Z by lia.
  cbn [shr]. rewrite shr_52_exact.
  cbn [shr_m loc_of_shr_record round_nearest_even Zdigits2 shr_record_of_loc].
  replace (e + -52 + 52)%Z with e by lia.
  rewrite Hc, Z.sub_diag. cbn [shr shr_m].
  rewrite He. reflexivity.
Qed.

(** [x * 1.0] is [x], for every binary64 value. *)
Lemma float_mul_one_r (x : float) : PrimFloat.mul x PrimFloat.one = x.
Proof.
  apply Prim2SF_inj. rewrite mul_spec, Prim2SF_one.
  pose proof (Prim2SF_valid x) as Hv.
  destruct (Prim2SF x) as [s | s | | s m e]; cbn.
  - by destruct s.
  - by destruct s.
  - done.
  - unfold SF64mul; cbn [SFmul]. rewrite xorb_false_r.
    apply round_times_one, Hv.
Qed.

Lemma float_same_refl (x : float) : float_same x x = true.
Proof.
  unfold float_same, PrimFloat.is_nan. by destruct (PrimFloat.eqb x x).
Qed.

Lemma float_same_zeros (x y : float) (s t : bool) :
  Prim2SF x = S754_zero s → Prim2SF y = S754_zero t → float_same x y = true.
Proof.
  intros Hx Hy. unfold float_same. rewrite FloatAxioms.eqb_spec, Hx, Hy. reflexivity.
Qed.

(** Adding to [0.0 + p] or to [p] gives the same spec-level float, or two
    zeros. *)
Lemma SFadd_zero_l_then (p n : spec_float) :
  SF64add (SF64add (S754_zero false) p) n = SF64add p n ∨
  ∃ s t, SF64add (SF64add (S754_zero false) p) n = S754_zero s ∧
         SF64add p n = S754_zero t.
Proof.
  destruct p as [[] | [] | | sp mp ep]; try (left; reflexivity).
  destruct n as [[] | [] | | sn mn en]; try (left; reflexivity).
  right. exists false, true. split; reflexivity.
Qed.

Lemma Prim2SF_zero_inv (x : float) (s : bool) :
  Prim2SF x = S754_zero s → x = if s then PrimFloat.neg_zero else PrimFloat.zero.
Proof.
  intros Hx. rewrite <- (SF2Prim_Prim2SF x), Hx. by destruct s.
Qed.

(** [(0.0 + p) + n] is [p + n], except that it is [+0.0] where [p + n] is
    [-0.0]. *)
Lemma float_add_zero_l_exact (p n : float) :
  PrimFloat.add (PrimFloat.add PrimFloat.zero p) n = PrimFloat.add p n ∨
  (PrimFloat.add (PrimFloat.add PrimFloat.zero p) n = PrimFloat.zero ∧
   PrimFloat.add p n = PrimFloat.neg_zero).
Proof.
  assert (SF64add (SF64add (S754_zero false) (Prim2SF p)) (Prim2SF n)
            = SF64add (Prim2SF p) (Prim2SF n) ∨
          (SF64add (SF64add (S754_zero false) (Prim2SF p)) (Prim2SF n) = S754_zero false ∧
           SF64add (Prim2SF p) (Prim2SF n) = S754_zero true)) as [Heq | [Hl Hr]].
  { destruct (Prim2SF p) as [[] | [] | | sp mp ep]; try (left; reflexivity).
    destruct (Prim2SF n) as [[] | [] | | sn mn en]; try (left; reflexivity).
    right. split; reflexivity. }
  - left. apply Prim2SF_inj. by rewrite !add_spec.
  - right. split.
    + apply (Prim2SF_zero_inv _ false). by rewrite !add_spec.
    + apply (Prim2SF_zero_inv _ true). by rewrite !add_spec.
Qed.

(** [(0.0 + p) + n] and [p + n] are the same value. *)
Lemma float_add_zero_l_same (p n : float) :
  float_same (PrimFloat.add (PrimFloat.add PrimFloat.zero p) n) (PrimFloat.add p n) = true.
Proof.
  destruct (SFadd_zero_l_then (Prim2SF p) (Prim2SF n)) as [Heq | (s & t & Hs & Ht)].
  - replace (PrimFloat.add (PrimFloat.add PrimFloat.zero p) n) with (PrimFloat.add p n).
    + apply float_same_refl.
    + apply Prim2SF_inj. rewrite !add_spec. symmetry. exact Heq.
  - apply (float_same_zeros _ _ s t); rewrite !add_spec; assumption.
Qed.

End Binary64.

(** * The monad and the array operations *)

Section Monad.
Context {S : Type}.

Lemma bind_Ok {A B} (m : M S A) (f : A → M S B) self log a self' log' :
  m self log = (Ok a, self', log') → (m ≫= f) self log = f a self' log'.
Proof. intros H. unfold mbind, M_bind. rewrite H. reflexivity. Qed.

End Monad.

(** Unfolds the monad's plumbing in the goal. *)
Ltac run_monad :=
  unfold mbind, M_bind, mret, M_ret, lift, raise, get_self, put_self, warn,
    result_bind, result_ret; cbn beta iota.

Lemma length_np_zeros n : length (np_zeros n) = n.
Proof. apply length_replicate. Qed.

Lemma np_scale_ones (s : float) (n : nat) : np_scale s (np_ones n) = replicate n s.
Proof.
  unfold np_scale, np_ones. rewrite fmap_replicate. f_equal. apply float_mul_one_r.
Qed.


(** * Assignments to the validated properties *)

Section Setters.
Variables (self : Data) (sv : Survey) (log : list Warning).
Hypothesis Hsurvey : survey self = Some sv.

Lemma _dobs_validator_spec (field : string) (a : ndarray) :
  _dobs_validator (mkChange field (PyArray a)) self log =
  if decide (length a = survey_nD sv)
  then (Ok tt, self, log)
  else (Raise (ValueError_length field (length a) (survey_nD sv)), self, log).
Proof.
  unfold _dobs_validator, self_survey_nD. run_monad. rewrite Hsurvey. cbn.
  repeat case_decide; congruence.
Qed.

Lemma set_dobs_array (a : ndarray) :
  set_dobs (PyArray a) self log =
  if decide (length a = survey_nD sv)
  then (Ok tt, with_dobs self a, log)
  else (Raise (ValueError_length "dobs" (length a) (survey_nD sv)), self, log).
Proof.
  unfold set_dobs. cbn [Array_validate].
  unfold mbind at 1, M_bind at 1, lift at 1.
  unfold mbind at 1, M_bind at 1. rewrite _dobs_validator_spec.
  case_decide; reflexivity.
Qed.

Lemma set_standard_deviation_array (a : ndarray) :
  set_standard_deviation (PyArray a) self log =
  if decide (length a = survey_nD sv)
  then (Ok tt, with_standard_deviation self a, log)
  else (Raise (ValueError_length "standard_deviation" (length a) (survey_nD sv)), self, log).
Proof.
  unfold set_standard_deviation, _uncertainty_validator. cbn [UncertaintyArray_validate value name].
  unfold mbind at 1, M_bind at 1, lift at 1.
  unfold mbind at 1, M_bind at 1.
  unfold mbind at 1, M_bind at 1.
  unfold mbind at 1, M_bind at 1, mret at 1, M_ret at 1.
  unfold mbind at 1, M_bind at 1. rewrite _dobs_validator_spec.
  case_decide; reflexivity.
Qed.

Lemma set_noise_floor_array (a : ndarray) :
  set_noise_floor (PyArray a) self log =
  if decide (length a = survey_nD sv)
  then (Ok tt, with_noise_floor self a, log)
  else (Raise (ValueError_length "noise_floor" (length a) (survey_nD sv)), self, log).
Proof.
  unfold set_noise_floor, _uncertainty_validator. cbn [UncertaintyArray_validate value name].
  unfold mbind at 1, M_bind at 1, lift at 1.
  unfold mbind at 1, M_bind at 1.
  unfold mbind at 1, M_bind at 1.
  unfold mbind at 1, M_bind at 1, mret at 1, M_ret at 1.
  unfold mbind at 1, M_bind at 1. rewrite _dobs_validator_spec.
  case_decide; reflexivity.
Qed.

(** A float scalar is assigned as [len(self.dobs)] copies of itself. *)
Lemma set_standard_deviation_float (s : float) (d : ndarray) :
  dobs self = Some d →
  set_standard_deviation (PyFloat s) self log =
  set_standard_deviation (PyArray (replicate (length d) s)) self log.
Proof.
  intros Hd. unfold set_standard_deviation, _uncertainty_validator, nD.
  cbn [UncertaintyArray_validate value name]. run_monad. rewrite Hd.
  rewrite np_scale_ones. reflexivity.
Qed.

Lemma set_noise_floor_float (s : float) (d : ndarray) :
  dobs self = Some d →
  set_noise_floor (PyFloat s) self log =
  set_noise_floor (PyArray (replicate (length d) s)) self log.
Proof.
  intros Hd. unfold set_noise_floor, _uncertainty_validator, nD.
  cbn [UncertaintyArray_validate value name]. run_monad. rewrite Hd.
  rewrite np_scale_ones. reflexivity.
Qed.

(** An [int] scalar is converted by [float] and then goes the way of a float
    scalar; a failing conversion leaves the object as it was. *)
Lemma set_standard_deviation_int (z : Z) :
  set_standard_deviation (PyInt z) self log =
  match py_float z with
  | Ok f => set_standard_deviation (PyFloat f) self log
  | Raise e => (Raise e, self, log)
  end.
Proof.
  unfold set_standard_deviation. cbn [UncertaintyArray_validate].
  destruct (py_float z); reflexivity.
Qed.

Lemma set_noise_floor_int (z : Z) :
  set_noise_floor (PyInt z) self log =
  match py_float z with
  | Ok f => set_noise_floor (PyFloat f) self log
  | Raise e => (Raise e, self, log)
  end.
Proof.
  unfold set_noise_floor. cbn [UncertaintyArray_validate].
  destruct (py_float z); reflexivity.
Qed.

End Setters.

(** * Construction *)

Lemma __init___defaults (sv : Survey) (log : list Warning) :
  __init__ sv None None None blank log = (Ok tt, fresh sv, log).
Proof.
  unfold __init__. cbn [default].
  rewrite (bind_Ok _ _ _ _ tt (with_survey blank sv) log) by reflexivity.
  rewrite np_scale_ones.
  erewrite bind_Ok; cycle 1.
  { rewrite (set_dobs_array _ sv) by reflexivity.
    rewrite length_replicate. rewrite decide_True by reflexivity. reflexivity. }
  erewrite bind_Ok; cycle 1.
  { rewrite (set_standard_deviation_array _ sv) by reflexivity.
    unfold np_zeros. rewrite length_replicate, decide_True by reflexivity. reflexivity. }
  rewrite (set_noise_floor_array _ sv) by reflexivity.
  unfold np_zeros. rewrite length_replicate, decide_True by reflexivity. reflexivity.
Qed.

(** C7.  For every survey with datum count [n], [Data(survey)] returns
    without raising or warning, and leaves [dobs] as [n] NaNs and
    [standard_deviation] and [noise_floor] as [n] zeros each, so that the
    three lengths are [n]. *)
Theorem fresh_data_defaults (sv : Survey) (log : list Warning) :
  ∃ d : Data,
    __init__ sv None None None blank log = (Ok tt, d, log) ∧
    survey d = Some sv ∧
    dobs d = Some (replicate (survey_nD sv) PrimFloat.nan) ∧
    standard_deviation d = Some (replicate (survey_nD sv) PrimFloat.zero) ∧
    noise_floor d = Some (replicate (survey_nD sv) PrimFloat.zero) ∧
    length <$> dobs d = Some (survey_nD sv) ∧
    length <$> standard_deviation d = Some (survey_nD sv) ∧
    length <$> noise_floor d = Some (survey_nD sv).
Proof.
  exists (fresh sv). split; [apply __init___defaults|].
  cbn [fresh survey dobs standard_deviation noise_floor fmap option_fmap option_map].
  rewrite !length_replicate. split_and!; reflexivity.
Qed.

(** * Length validation *)

(** C5.  On a [Data] object whose survey expects [n] data, assigning an
    array of any other length to [dobs], [standard_deviation] or
    [noise_floor] raises the validator's error, which carries the field
    name, the length received and the length expected, and the object, hence
    the field's previous value, is what it was. *)
Theorem wrong_length_assignment_raises
    (self : Data) (sv : Survey) (log : list Warning) (a : ndarray) :
  survey self = Some sv →
  length a ≠ survey_nD sv →
  set_dobs (PyArray a) self log =
    (Raise (ValueError_length "dobs" (length a) (survey_nD sv)), self, log) ∧
  set_standard_deviation (PyArray a) self log =
    (Raise (ValueError_length "standard_deviation" (length a) (survey_nD sv)), self, log) ∧
  set_noise_floor (PyArray a) self log =
    (Raise (ValueError_length "noise_floor" (length a) (survey_nD sv)), self, log).
Proof.
  intros Hsv Hlen.
  rewrite (set_dobs_array self sv), (set_standard_deviation_array self sv),
    (set_noise_floor_array self sv) by assumption.
  repeat case_decide; try contradiction. split_and!; reflexivity.
Qed.

Lemma wrong_length_assignment_raises_witness :
  set_dobs (PyArray [PrimFloat.one]) Example.data6 [] =
    (Raise (ValueError_length "dobs" 1 6), Example.data6, []) ∧
  set_standard_deviation (PyArray [PrimFloat.one]) Example.data6 [] =
    (Raise (ValueError_length "standard_deviation" 1 6), Example.data6, []) ∧
  set_noise_floor (PyArray [PrimFloat.one]) Example.data6 [] =
    (Raise (ValueError_length "noise_floor" 1 6), Example.data6, []).
Proof.
  apply (wrong_length_assignment_raises Example.data6 Example.survey6 [] [PrimFloat.one]).
  - reflexivity.
  - vm_compute. lia.
Defined.

(** * Scalars *)

Lemma scalar_assignment_is_broadcast_aux
    (self : Data) (sv : Survey) (d : ndarray) (log : list Warning) (s : float) :
  survey self = Some sv →
  dobs self = Some d →
  length d = survey_nD sv →
  set_standard_deviation (PyFloat s) self log =
    (Ok tt, with_standard_deviation self (replicate (survey_nD sv) s), log) ∧
  set_noise_floor (PyFloat s) self log =
    (Ok tt, with_noise_floor self (replicate (survey_nD sv) s), log).
Proof.
  intros Hsv Hd Hlen.
  rewrite (set_standard_deviation_float self log s d Hd),
    (set_noise_floor_float self log s d Hd), Hlen.
  rewrite (set_standard_deviation_array self sv), (set_noise_floor_array self sv)
    by assumption.
  rewrite length_replicate.
  repeat case_decide; try contradiction. split_and!; reflexivity.
Qed.

(** C6, as stated, fails on an object whose survey has been reassigned: the
    scalar is broadcast to [len(dobs)], not to [survey.nD].  After
    [Data(survey6)] and [data.survey = survey_last], where [n] is 1 and
    [dobs] still has 6 entries, assigning the scalar [0.5] is refused with
    the length error (6 received, 1 expected) and the object is unchanged,
    while the array of [n] copies of [0.5] is stored. *)
Lemma scalar_after_survey_swap_is_refused :
  (_ ← __init__ Example.survey6 None None None; set_survey Example.survey_last) blank [] =
    (Ok tt, with_survey Example.data6 Example.survey_last, []) ∧
  survey_nD Example.survey_last = 1 ∧
  set_standard_deviation (PyFloat 0.5) (with_survey Example.data6 Example.survey_last) [] =
    (Raise (ValueError_length "standard_deviation" 6 1),
     with_survey Example.data6 Example.survey_last, []) ∧
  set_standard_deviation (PyArray (replicate 1 0.5%float))
      (with_survey Example.data6 Example.survey_last) [] =
    (Ok tt,
     with_standard_deviation (with_survey Example.data6 Example.survey_last) [0.5%float],
     []) ∧
  set_noise_floor (PyFloat 0.5) (with_survey Example.data6 Example.survey_last) [] =
    (Raise (ValueError_length "noise_floor" 6 1),
     with_survey Example.data6 Example.survey_last, []) ∧
  set_noise_floor (PyArray (replicate 1 0.5%float))
      (with_survey Example.data6 Example.survey_last) [] =
    (Ok tt,
     with_noise_floor (with_survey Example.data6 Example.survey_last) [0.5%float],
     []).
Proof. split_and!; vm_compute; reflexivity. Qed.

(** C6, amended.  On a [Data] object whose [dobs] has the survey's [n]
    entries, assigning the float scalar [s] to [standard_deviation] has the
    outcome of assigning an array of [n] copies of [s], which is that the
    field holds these [n] copies; likewise for [noise_floor]. *)
Theorem scalar_assignment_is_broadcast
    (self : Data) (sv : Survey) (d : ndarray) (log : list Warning) (s : float) :
  survey self = Some sv →
  dobs self = Some d →
  length d = survey_nD sv →
  (set_standard_deviation (PyFloat s) self log =
     set_standard_deviation (PyArray (replicate (survey_nD sv) s)) self log ∧
   set_standard_deviation (PyFloat s) self log =
     (Ok tt, with_standard_deviation self (replicate (survey_nD sv) s), log)) ∧
  (set_noise_floor (PyFloat s) self log =
     set_noise_floor (PyArray (replicate (survey_nD sv) s)) self log ∧
   set_noise_floor (PyFloat s) self log =
     (Ok tt, with_noise_floor self (replicate (survey_nD sv) s), log)).
Proof.
  intros Hsv Hd Hlen.
  destruct (scalar_assignment_is_broadcast_aux self sv d log s Hsv Hd Hlen) as [Hs Hn].
  rewrite <- Hlen at 1 3.
  rewrite <- (set_standard_deviation_float self log s d Hd),
    <- (set_noise_floor_float self log s d Hd).
  auto.
Qed.

Lemma scalar_assignment_is_broadcast_witness :
  (set_standard_deviation (PyFloat 0.5) Example.data6 [] =
     set_standard_deviation (PyArray (replicate 6 0.5%float)) Example.data6 [] ∧
   set_standard_deviation (PyFloat 0.5) Example.data6 [] =
     (Ok tt, with_standard_deviation Example.data6 (replicate 6 0.5%float), [])) ∧
  (set_noise_floor (PyFloat 0.5) Example.data6 [] =
     set_noise_floor (PyArray (replicate 6 0.5%float)) Example.data6 [] ∧
   set_noise_floor (PyFloat 0.5) Example.data6 [] =
     (Ok tt, with_noise_floor Example.data6 (replicate 6 0.5%float), [])).
Proof.
  apply (scalar_assignment_is_broadcast Example.data6 Example.survey6
           (replicate 6 PrimFloat.nan) [] 0.5%float); reflexivity.
Defined.

(** C10, as stated, fails: [float] raises [OverflowError] on an [int] beyond
    the binary64 range, here [2**1024], and the assignment raises with it. *)
Lemma int_scalar_overflow :
  set_standard_deviation (PyInt (2 ^ 1024)) Example.data6 [] =
    (Raise OverflowError, Example.data6, []) ∧
  set_noise_floor (PyInt (2 ^ 1024)) Example.data6 [] =
    (Raise OverflowError, Example.data6, []).
Proof. split; vm_compute; reflexivity. Qed.

(** C10, amended.  For every Python [int] [z] that [float] converts, to [f]
    say, assigning [z] to [standard_deviation] or [noise_floor] on a [Data]
    object whose [dobs] has the survey's [n] entries succeeds by the path of
    the float scalar [f], and leaves the field equal to [n] copies of [f]. *)
Theorem int_scalar_assignment
    (self : Data) (sv : Survey) (d : ndarray) (log : list Warning) (z : Z) (f : float) :
  survey self = Some sv →
  dobs self = Some d →
  length d = survey_nD sv →
  py_float z = Ok f →
  UncertaintyArray_validate (PyInt z) = Ok (PyFloat f) ∧
  (set_standard_deviation (PyInt z) self log = set_standard_deviation (PyFloat f) self log ∧
   set_standard_deviation (PyInt z) self log =
     (Ok tt, with_standard_deviation self (replicate (survey_nD sv) f), log)) ∧
  (set_noise_floor (PyInt z) self log = set_noise_floor (PyFloat f) self log ∧
   set_noise_floor (PyInt z) self log =
     (Ok tt, with_noise_floor self (replicate (survey_nD sv) f), log)).
Proof.
  intros Hsv Hd Hlen Hz.
  destruct (scalar_assignment_is_broadcast_aux self sv d log f Hsv Hd Hlen) as [Hs Hn].
  rewrite set_standard_deviation_int, set_noise_floor_int.
  cbn [UncertaintyArray_validate]. rewrite Hz. auto.
Qed.

Lemma int_scalar_assignment_witness :
  UncertaintyArray_validate (PyInt 3) = Ok (PyFloat 3) ∧
  (set_standard_deviation (PyInt 3) Example.data6 [] =
     set_standard_deviation (PyFloat 3) Example.data6 [] ∧
   set_standard_deviation (PyInt 3) Example.data6 [] =
     (Ok tt, with_standard_deviation Example.data6 (replicate 6 3%float), [])) ∧
  (set_noise_floor (PyInt 3) Example.data6 [] =
     set_noise_floor (PyFloat 3) Example.data6 [] ∧
   set_noise_floor (PyInt 3) Example.data6 [] =
     (Ok tt, with_noise_floor Example.data6 (replicate 6 3%float), [])).
Proof.
  apply (int_scalar_assignment Example.data6 Example.survey6
           (replicate 6 PrimFloat.nan) [] 3%Z 3%float); reflexivity.
Defined.

(** * Uncertainty *)

Lemma uncertainty_entries (p nf : ndarray) :
  length p = length nf →
  Forall2 (λ x y, float_same x y = true ∧
                  (x = y ∨ (x = PrimFloat.zero ∧ y = PrimFloat.neg_zero)))
    (zip_with PrimFloat.add (zip_with PrimFloat.add (np_zeros (length p)) p) nf)
    (zip_with PrimFloat.add p nf).
Proof.
  revert nf. induction p as [|x p IH]; intros [|y nf] Hlen; simplify_eq/=.
  - constructor.
  - constructor.
    + split; [apply float_add_zero_l_same | apply float_add_zero_l_exact].
    + apply IH. assumption.
Qed.

(** What the getter computes when the three arrays are set and of one
    length. *)
Lemma uncertainty_runs (self : Data) (log : list Warning) (d sd nf : ndarray) :
  dobs self = Some d →
  standard_deviation self = Some sd →
  noise_floor self = Some nf →
  length sd = length d →
  length nf = length d →
  uncertainty self log =
    (Ok (zip_with PrimFloat.add
           (zip_with PrimFloat.add (np_zeros (length d))
              (zip_with PrimFloat.mul sd (PrimFloat.abs <$> d))) nf),
     self, log).
Proof.
  intros Hd Hsd Hnf Hl1 Hl2.
  unfold uncertainty, nD. run_monad. rewrite Hsd, Hnf, Hd. cbn beta iota.
  unfold np_multiply, np_add, np_absolute, np_binop.
  rewrite decide_True by (rewrite length_fmap; assumption). cbn beta iota.
  rewrite decide_True
    by (rewrite length_zip_with, length_fmap, length_np_zeros; lia). cbn beta iota.
  rewrite decide_True
    by (rewrite !length_zip_with, length_fmap, length_np_zeros; lia).
  reflexivity.
Qed.

(** C4.  In a state where [dobs], [standard_deviation] and [noise_floor] are
    set and have the survey's [n] entries each, reading [uncertainty] returns,
    without raising and without touching the object, an array of [n] entries
    whose every entry has the value of
    [standard_deviation * abs(dobs) + noise_floor] at that position: the two
    are equal as floats (NaN where the formula is NaN), and identical except
    that the entry is [+0.0] where the formula gives [-0.0]. *)
Theorem uncertainty_is_formula
    (self : Data) (sv : Survey) (log : list Warning) (d sd nf : ndarray) :
  survey self = Some sv →
  dobs self = Some d →
  standard_deviation self = Some sd →
  noise_floor self = Some nf →
  length d = survey_nD sv →
  length sd = survey_nD sv →
  length nf = survey_nD sv →
  ∃ u : ndarray,
    uncertainty self log = (Ok u, self, log) ∧
    length u = survey_nD sv ∧
    length (uncertainty_formula sd d nf) = survey_nD sv ∧
    Forall2 (λ x y, float_same x y = true ∧
                    (x = y ∨ (x = PrimFloat.zero ∧ y = PrimFloat.neg_zero)))
      u (uncertainty_formula sd d nf).
Proof.
  intros _ Hd Hsd Hnf Hld Hlsd Hlnf.
  eexists. split; [apply (uncertainty_runs self log d sd nf); congruence|].
  unfold uncertainty_formula.
  assert (length (zip_with PrimFloat.mul sd (PrimFloat.abs <$> d)) = length d) as Hp
    by (rewrite length_zip_with, length_fmap; lia).
  split_and!.
  - rewrite !length_zip_with, length_fmap, length_np_zeros. lia.
  - rewrite !length_zip_with, length_fmap. lia.
  - rewrite <- Hp. apply uncertainty_entries. rewrite Hp. congruence.
Qed.

Lemma uncertainty_is_formula_witness :
  ∃ u : ndarray,
    uncertainty
      (mkData (Some Example.survey6) (Some [1; -2; 3; -4; 5; -6]%float)
         (Some (replicate 6 0.5%float)) (Some (replicate 6 0.25%float)) None) [] =
      (Ok u,
       mkData (Some Example.survey6) (Some [1; -2; 3; -4; 5; -6]%float)
         (Some (replicate 6 0.5%float)) (Some (replicate 6 0.25%float)) None, []) ∧
    length u = survey_nD Example.survey6 ∧
    length (uncertainty_formula (replicate 6 0.5%float) [1; -2; 3; -4; 5; -6]%float
              (replicate 6 0.25%float)) = survey_nD Example.survey6 ∧
    Forall2 (λ x y, float_same x y = true ∧
                    (x = y ∨ (x = PrimFloat.zero ∧ y = PrimFloat.neg_zero))) u
      (uncertainty_formula (replicate 6 0.5%float) [1; -2; 3; -4; 5; -6]%float
         (replicate 6 0.25%float)).
Proof.
  apply (uncertainty_is_formula
           (mkData (Some Example.survey6) (Some [1; -2; 3; -4; 5; -6]%float)
              (Some (replicate 6 0.5%float)) (Some (replicate 6 0.25%float)) None)
           Example.survey6 []); reflexivity.
Defined.

(** C1.  The [uncertainty] setter never completes: whatever the object and
    the value, it raises and leaves the object as it was, so that
    [standard_deviation] is not cleared and [noise_floor] does not become the
    value.  Once [dobs] is set, as it is after [__init__], the exception is
    the [AttributeError] of the lookup [self.self]; the last part runs the
    setter on a [Data] with [standard_deviation = 0.5]. *)
Theorem uncertainty_setter_raises (value : PyVal) (self : Data) (log : list Warning) :
  (∃ e : PyExc, uncertainty_setter value self log = (Raise e, self, log)) ∧
  (is_Some (dobs self) →
   uncertainty_setter value self log = (Raise (AttributeError "self"), self, log)) ∧
  uncertainty_setter (PyArray (replicate 6 PrimFloat.one))
    (with_standard_deviation Example.data6 (replicate 6 0.5%float)) [] =
    (Raise (AttributeError "self"),
     with_standard_deviation Example.data6 (replicate 6 0.5%float), []).
Proof.
  unfold uncertainty_setter, nD, getattr_undefined. run_monad.
  destruct (dobs self) as [d|] eqn:Hd; split_and!; eauto.
  intros [? [=]].
Qed.

(** * SyntheticData *)

Lemma inherited_run {A} (m : M Data A) (self : SyntheticData) (log : list Warning)
    (r : result A) (b : Data) (log' : list Warning) :
  m (base self) log = (r, b, log') →
  inherited m self log = (r, mkSyntheticData b (dclean self), log').
Proof. intros H. unfold inherited. rewrite H. reflexivity. Qed.

Lemma set_dclean_array (self : SyntheticData) (sv : Survey) (log : list Warning) (a : ndarray) :
  survey (base self) = Some sv →
  set_dclean (PyArray a) self log =
  if decide (length a = survey_nD sv)
  then (Ok tt, mkSyntheticData (base self) (Some a), log)
  else (Raise (ValueError_length "dclean" (length a) (survey_nD sv)), self, log).
Proof.
  intros Hsv. unfold set_dclean, _dclean_validator. cbn [Array_validate].
  unfold mbind at 1, M_bind at 1, lift at 1.
  unfold mbind at 1, M_bind at 1.
  pose proof (_dobs_validator_spec (base self) sv log Hsv "dclean" a) as Hval.
  destruct (decide (length a = survey_nD sv));
    rewrite (inherited_run _ _ _ _ _ _ Hval); destruct self; reflexivity.
Qed.

(** The setters leave the survey in place. *)
Lemma set_dobs_survey (v : PyVal) (self d : Data) (log log' : list Warning) :
  set_dobs v self log = (Ok tt, d, log') → survey d = survey self.
Proof.
  unfold set_dobs, _dobs_validator, self_survey_nD, as_array. run_monad. intros Hrun.
  repeat (case_match; cbn beta iota in *; simplify_eq/=); done.
Qed.

Lemma set_standard_deviation_survey (v : PyVal) (self d : Data) (log log' : list Warning) :
  set_standard_deviation v self log = (Ok tt, d, log') → survey d = survey self.
Proof.
  unfold set_standard_deviation, _uncertainty_validator, _dobs_validator, self_survey_nD,
    nD, as_array.
  run_monad. intros Hrun.
  repeat (case_match; cbn beta iota in *; simplify_eq/=); done.
Qed.

Lemma set_noise_floor_survey (v : PyVal) (self d : Data) (log log' : list Warning) :
  set_noise_floor v self log = (Ok tt, d, log') → survey d = survey self.
Proof.
  unfold set_noise_floor, _uncertainty_validator, _dobs_validator, self_survey_nD,
    nD, as_array.
  run_monad. intros Hrun.
  repeat (case_match; cbn beta iota in *; simplify_eq/=); done.
Qed.

(** A completed [__init__] has attached its survey. *)
Lemma __init___survey (sv : Survey) (dobs0 sd0 nf0 : option PyVal)
    (d : Data) (log log' : list Warning) :
  __init__ sv dobs0 sd0 nf0 blank log = (Ok tt, d, log') → survey d = Some sv.
Proof.
  unfold __init__. unfold mbind at 1, M_bind at 1. cbn [set_survey].
  change (set_survey sv blank log) with (Ok tt, with_survey blank sv, log). cbn beta iota.
  unfold mbind at 1, M_bind at 1.
  destruct (set_dobs _ _ _) as [[[[]|e1] d1] log1] eqn:H1; [|done].
  unfold mbind at 1, M_bind at 1.
  destruct (set_standard_deviation _ _ _) as [[[[]|e2] d2] log2] eqn:H2; [|done].
  intros H3.
  apply set_noise_floor_survey in H3. apply set_standard_deviation_survey in H2.
  apply set_dobs_survey in H1. cbn [with_survey survey] in H1. congruence.
Qed.

(** After the base constructor, a missing [dclean] is filled with NaNs. *)
Lemma SyntheticData_init_default (sv : Survey) (dobs0 sd0 nf0 : option PyVal)
    (d : Data) (log log' : list Warning) :
  __init__ sv dobs0 sd0 nf0 blank log = (Ok tt, d, log') →
  SyntheticData_init sv dobs0 None sd0 nf0 blank_synthetic log =
    (Ok tt, mkSyntheticData d (Some (replicate (survey_nD sv) PrimFloat.nan)), log').
Proof.
  intros Hinit. pose proof (__init___survey _ _ _ _ _ _ _ Hinit) as Hs.
  unfold SyntheticData_init. cbn [default].
  erewrite bind_Ok; cycle 1.
  { apply inherited_run. exact Hinit. }
  erewrite bind_Ok; cycle 1.
  { apply inherited_run. cbn [base]. unfold self_survey_nD. run_monad.
    rewrite Hs. reflexivity. }
  rewrite np_scale_ones.
  rewrite (set_dclean_array _ sv) by exact Hs.
  rewrite length_replicate, decide_True by reflexivity. reflexivity.
Qed.

(** C9.  On a [SyntheticData] object, an array is accepted for [dclean]
    exactly when it is accepted for [dobs], namely when its length is the
    survey's [n]: any other length raises the same validator's error and
    leaves the object as it was.  Constructed without [dclean], with or
    without the other arrays, the object gets [n] NaNs as [dclean] once the
    base constructor has completed. *)
Theorem dclean_length_invariant
    (self : SyntheticData) (sv : Survey) (log : list Warning) (a : ndarray) :
  survey (base self) = Some sv →
  length a ≠ survey_nD sv →
  set_dclean (PyArray a) self log =
    (Raise (ValueError_length "dclean" (length a) (survey_nD sv)), self, log) ∧
  inherited (set_dobs (PyArray a)) self log =
    (Raise (ValueError_length "dobs" (length a) (survey_nD sv)), self, log) ∧
  (∀ a' : ndarray, length a' = survey_nD sv →
     set_dclean (PyArray a') self log = (Ok tt, mkSyntheticData (base self) (Some a'), log) ∧
     inherited (set_dobs (PyArray a')) self log =
       (Ok tt, mkSyntheticData (with_dobs (base self) a') (dclean self), log)) ∧
  (∃ o : SyntheticData,
     SyntheticData_init sv None None None None blank_synthetic log = (Ok tt, o, log) ∧
     dclean o = Some (replicate (survey_nD sv) PrimFloat.nan) ∧
     length <$> dclean o = Some (survey_nD sv) ∧
     dobs (base o) = Some (replicate (survey_nD sv) PrimFloat.nan)) ∧
  (∀ (dobs0 sd0 nf0 : option PyVal) (d : Data) (log' : list Warning),
     __init__ sv dobs0 sd0 nf0 blank log = (Ok tt, d, log') →
     SyntheticData_init sv dobs0 None sd0 nf0 blank_synthetic log =
       (Ok tt, mkSyntheticData d (Some (replicate (survey_nD sv) PrimFloat.nan)), log')).
Proof.
  intros Hsv Hlen. split_and!.
  - rewrite (set_dclean_array self sv) by assumption. by rewrite decide_False.
  - erewrite inherited_run; cycle 1.
    { rewrite (set_dobs_array (base self) sv) by assumption. by rewrite decide_False. }
    by destruct self.
  - intros a' Hlen'. split.
    + rewrite (set_dclean_array self sv) by assumption. by rewrite decide_True.
    + erewrite inherited_run; cycle 1.
      { rewrite (set_dobs_array (base self) sv) by assumption. by rewrite decide_True. }
      reflexivity.
  - exists (mkSyntheticData (fresh sv) (Some (replicate (survey_nD sv) PrimFloat.nan))).
    cbn [dclean base fresh dobs fmap option_fmap option_map]. rewrite length_replicate.
    split_and!; try done.
    apply SyntheticData_init_default, __init___defaults.
  - intros dobs0 sd0 nf0 d log'. apply SyntheticData_init_default.
Qed.

Lemma dclean_length_invariant_witness :
  set_dclean (PyArray [PrimFloat.one]) (mkSyntheticData Example.data6 None) [] =
    (Raise (ValueError_length "dclean" 1 6), mkSyntheticData Example.data6 None, []).
Proof.
  apply (dclean_length_invariant (mkSyntheticData Example.data6 None)
           Example.survey6 [] [PrimFloat.one]).
  - reflexivity.
  - vm_compute. lia.
Defined.

(** * The index dictionary *)

Lemma concat_ranges_from (off : nat) (counts : list nat) :
  concat (ranges_from off counts) = seq off (sum_list counts).
Proof.
  revert off. induction counts as [|n counts IH]; intros off; [reflexivity|].
  cbn [ranges_from concat sum_list sum_list_with]. rewrite IH, seq_app. reflexivity.
Qed.

Lemma ranges_from_app (off : nat) (xs ys : list nat) :
  ranges_from off (xs ++ ys) = ranges_from off xs ++ ranges_from (off + sum_list xs) ys.
Proof.
  revert off. induction xs as [|n xs IH]; intros off; cbn.
  - by rewrite Nat.add_0_r.
  - rewrite IH. do 3 f_equal. lia.
Qed.

Lemma np_arange_run (b n : nat) : np_arange b (b + n) = seq b n.
Proof. unfold np_arange. f_equal. lia. Qed.

Section ReceiverLoop.
Variable src : Source.

(** One pass of the inner loop from synchronised counters. *)
Lemma index_rx_step_run (b : nat) (d : IndexDict) (rx : Receiver) :
  index_rx_step src (b, b, d) rx =
  (b + rx_nD rx, b + rx_nD rx,
   alter (λ inner, <[rx_id rx := seq b (rx_nD rx)]> inner) (src_id src) d).
Proof. unfold index_rx_step. rewrite np_arange_run. reflexivity. Qed.

Lemma rx_loop_counters (rs : list Receiver) (b : nat) (d : IndexDict) :
  (foldl (index_rx_step src) (b, b, d) rs).1 =
  (b + sum_list (rx_nD <$> rs), b + sum_list (rx_nD <$> rs)).
Proof.
  revert b d. induction rs as [|rx rs IH]; intros b d; cbn [foldl].
  - cbn. by rewrite Nat.add_0_r.
  - rewrite index_rx_step_run, IH. cbn. f_equal; lia.
Qed.

Lemma rx_loop_other_source (rs : list Receiver) (b : nat) (d : IndexDict) (s : nat) :
  s ≠ src_id src →
  (foldl (index_rx_step src) (b, b, d) rs).2 !! s = d !! s.
Proof.
  intros Hs. revert b d. induction rs as [|rx rs IH]; intros b d; cbn [foldl]; [done|].
  rewrite index_rx_step_run, IH. by apply lookup_alter_ne.
Qed.

Lemma rx_loop_is_Some (rs : list Receiver) (b : nat) (d : IndexDict) (s : nat) :
  is_Some (d !! s) →
  is_Some ((foldl (index_rx_step src) (b, b, d) rs).2 !! s).
Proof.
  revert b d. induction rs as [|rx rs IH]; intros b d Hd; cbn [foldl]; [done|].
  rewrite index_rx_step_run. apply IH. by apply lookup_alter_is_Some.
Qed.

Lemma rx_loop_other_receiver (rs : list Receiver) (b : nat) (d : IndexDict) (r : nat) :
  r ∉ rx_id <$> rs →
  ((foldl (index_rx_step src) (b, b, d) rs).2 !! src_id src ≫= (.!! r)) =
  (d !! src_id src ≫= (.!! r)).
Proof.
  revert b d. induction rs as [|rx rs IH]; intros b d Hr; cbn [foldl]; [done|].
  rewrite fmap_cons in Hr. apply not_elem_of_cons in Hr as [Hne Hr].
  rewrite index_rx_step_run, IH by assumption.
  rewrite lookup_alter_eq. destruct (d !! src_id src) as [inner|]; cbn; [|done].
  by rewrite lookup_insert_ne.
Qed.

(** After the inner loop, the receivers of [src] hold consecutive runs. *)
Lemma rx_loop_ranges (rs : list Receiver) (b : nat) (d : IndexDict) :
  NoDup (rx_id <$> rs) →
  is_Some (d !! src_id src) →
  (λ rx, (foldl (index_rx_step src) (b, b, d) rs).2 !! src_id src ≫= (.!! rx_id rx)) <$> rs
  = Some <$> ranges_from b (rx_nD <$> rs).
Proof.
  revert b d. induction rs as [|rx rs IH]; intros b d Hnd Hd; [done|].
  rewrite fmap_cons in Hnd. apply NoDup_cons in Hnd as [Hnin Hnd].
  cbn [foldl]. rewrite index_rx_step_run.
  rewrite !fmap_cons. cbn [ranges_from]. rewrite fmap_cons. f_equal.
  - rewrite rx_loop_other_receiver by assumption.
    rewrite lookup_alter_eq. destruct Hd as [inner ->]. cbn.
    by rewrite lookup_insert_eq.
  - apply IH; [assumption|]. by apply lookup_alter_is_Some.
Qed.

End ReceiverLoop.

Lemma index_src_step_run (b : nat) (d : IndexDict) (src : Source) :
  index_src_step (b, b, d) src =
  (b + src_nD src, b + src_nD src,
   (foldl (index_rx_step src) (b, b, d) (receiver_list src)).2).
Proof.
  unfold index_src_step, src_nD.
  pose proof (rx_loop_counters src (receiver_list src) b d) as Hc.
  destruct (foldl (index_rx_step src) (b, b, d) (receiver_list src)) as [bt d'].
  cbn in *. by rewrite Hc.
Qed.

Lemma keys_of_cons (src : Source) (ss : list Source) :
  keys_of (src :: ss) = (pair src <$> receiver_list src) ++ keys_of ss.
Proof. reflexivity. Qed.

Lemma counts_of_source (src : Source) :
  (rx_nD ∘ snd) <$> (pair src <$> receiver_list src) = rx_nD <$> receiver_list src.
Proof. rewrite <- list_fmap_compose. reflexivity. Qed.

Lemma sum_counts_keys_of (ss : list Source) :
  sum_list ((rx_nD ∘ snd) <$> keys_of ss) = sum_list (src_nD <$> ss).
Proof.
  induction ss as [|src ss IH]; [reflexivity|].
  rewrite keys_of_cons, fmap_app, sum_list_with_app, counts_of_source, IH. reflexivity.
Qed.

Lemma src_loop_other_source (ss : list Source) (b : nat) (d : IndexDict) (s : nat) :
  s ∉ src_id <$> ss →
  (foldl index_src_step (b, b, d) ss).2 !! s = d !! s.
Proof.
  revert b d. induction ss as [|src ss IH]; intros b d Hs; cbn [foldl]; [done|].
  rewrite fmap_cons in Hs. apply not_elem_of_cons in Hs as [Hne Hs].
  rewrite index_src_step_run, IH by assumption.
  by apply rx_loop_other_source.
Qed.

(** After the outer loop, the pairs of the walk hold consecutive runs. *)
Lemma src_loop_ranges (ss : list Source) (b : nat) (d : IndexDict) :
  NoDup (src_id <$> ss) →
  Forall (λ src, NoDup (rx_id <$> receiver_list src)) ss →
  Forall (λ src, is_Some (d !! src_id src)) ss →
  dict_range (foldl index_src_step (b, b, d) ss).2 <$> keys_of ss
  = Some <$> ranges_from b ((rx_nD ∘ snd) <$> keys_of ss).
Proof.
  revert b d. induction ss as [|src ss IH]; intros b d Hnd Hrx Hd; [done|].
  rewrite fmap_cons in Hnd. apply NoDup_cons in Hnd as [Hnin Hnd].
  apply Forall_cons in Hrx as [Hrx0 Hrx]. apply Forall_cons in Hd as [Hd0 Hd].
  cbn [foldl]. rewrite index_src_step_run.
  rewrite keys_of_cons, !fmap_app, ranges_from_app, fmap_app, counts_of_source.
  f_equal.
  - rewrite <- list_fmap_compose.
    rewrite <- (rx_loop_ranges src (receiver_list src) b d) by assumption.
    apply list_fmap_ext. intros i rx _. unfold dict_range, compose. cbn [fst snd].
    by rewrite src_loop_other_source.
  - apply IH; [assumption..|].
    eapply Forall_impl; [exact Hd|]. intros src' Hsrc'. cbn beta in *.
    destruct (decide (src_id src' = src_id src)) as [->|Hne].
    + by apply rx_loop_is_Some.
    + by rewrite rx_loop_other_source.
Qed.

Lemma empty_dicts_is_Some (ss : list Source) (d : IndexDict) (s : nat) :
  is_Some (d !! s) ∨ s ∈ src_id <$> ss →
  is_Some (foldl (λ d src, <[src_id src := ∅]> d) d ss !! s).
Proof.
  revert d. induction ss as [|src ss IH]; intros d [Hd|Hin]; cbn [foldl].
  - done.
  - by apply elem_of_nil in Hin.
  - apply IH. left. rewrite lookup_insert_is_Some. destruct (decide (src_id src = s)); auto.
  - rewrite fmap_cons in Hin. apply elem_of_cons in Hin as [->|Hin].
    + apply IH. left. rewrite lookup_insert_eq. eauto.
    + apply IH. by right.
Qed.

(** The dictionary of a survey without repeated keys: in the order of the
    walk, each pair holds the run of [rx.nD] indices that starts where the
    run before it ends, the first at [0]. *)
Lemma build_index_dict_ranges (sv : Survey) :
  unique_keys sv →
  dict_range (build_index_dict sv) <$> walk_keys sv
  = Some <$> ranges_from 0 ((rx_nD ∘ snd) <$> walk_keys sv).
Proof.
  intros [Hnd Hrx]. unfold build_index_dict, walk_keys.
  apply src_loop_ranges; [assumption..|].
  apply Forall_forall. intros src Hsrc. apply empty_dicts_is_Some. right.
  by apply list_elem_of_fmap_2.
Qed.

Lemma index_dict_fresh (self : Data) (sv : Survey) (log : list Warning) :
  survey self = Some sv →
  _index_dict self = None →
  index_dict self log =
    (Ok (build_index_dict sv), with_index_dict self (build_index_dict sv), log).
Proof. intros Hsv Hc. unfold index_dict. run_monad. by rewrite Hc, Hsv. Qed.

Lemma index_dict_cached (self : Data) (d : IndexDict) (log : list Warning) :
  _index_dict self = Some d →
  index_dict self log = (Ok d, self, log).
Proof. intros Hc. unfold index_dict. run_monad. by rewrite Hc. Qed.

Lemma index_dict_consistent (self : Data) (sv : Survey) (log : list Warning) :
  survey self = Some sv →
  _index_dict self = None ∨ _index_dict self = Some (build_index_dict sv) →
  index_dict self log =
    (Ok (build_index_dict sv), with_index_dict self (build_index_dict sv), log).
Proof.
  intros Hsv [Hc|Hc].
  - by apply index_dict_fresh.
  - rewrite (index_dict_cached _ _ _ Hc). destruct self. cbn in *. by subst.
Qed.

(** [Example.data6] is what [Data(survey6)] constructs. *)
Lemma example_data6_constructed :
  __init__ Example.survey6 None None None blank [] = (Ok tt, Example.data6, []).
Proof. apply (__init___defaults Example.survey6). Qed.

(** Why the survey must not repeat a key.  For a source list that holds
    [s2] twice [survey.nD] is 2 and the walk assigns [[0,1)] and then
    [[1,2)] to the one key [(s2, r3)]: the dictionary keeps the second, so
    the ranges read off in the order of the walk are [[1,2)] twice, and no
    range of the dictionary contains index 0. *)
Lemma repeated_source_leaves_gap :
  survey_nD Example.survey_twice = 2 ∧
  dict_range (build_index_dict Example.survey_twice) <$> walk_keys Example.survey_twice
    = [Some [1]; Some [1]] ∧
  ranges_from 0 ((rx_nD ∘ snd) <$> walk_keys Example.survey_twice) = [[0]; [1]] ∧
  (∀ (key : Source * Receiver) (index : list nat),
     dict_range (build_index_dict Example.survey_twice) key = Some index → 0 ∉ index).
Proof.
  split_and!; try (vm_compute; reflexivity).
  intros key index.
  assert (build_index_dict Example.survey_twice = {[2 := {[3 := [1]]}]}) as ->
    by (vm_compute; reflexivity).
  unfold dict_range.
  intros Hrange. apply bind_Some in Hrange as (inner & Hinner & Hindex).
  apply lookup_singleton_Some in Hinner as [_ <-].
  apply lookup_singleton_Some in Hindex as [_ <-].
  by intros [=]%list_elem_of_singleton.
Qed.

(** C3, as stated, fails once the survey of an object has been reassigned:
    the dictionary is built at the first read of [index_dict] and kept.
    After [Data(survey6)], a read of [index_dict] and
    [data.survey = survey_last] (the source [s2] alone, no key repeated,
    [survey.nD] is 1) the accessor still returns the dictionary of
    [survey6]: the run of [(s2, r3)], the only pair of the survey, is
    [[5,6)], outside [[0,1)], and index 0 is in the run of [(s1, r1)], a
    pair the survey does not have. *)
Lemma stale_index_dict_misses_survey :
  unique_keys Example.survey_last ∧
  survey_nD Example.survey_last = 1 ∧
  walk_keys Example.survey_last = [(Example.s2, Example.r3)] ∧
  (_ ← __init__ Example.survey6 None None None;
   _ ← index_dict;
   _ ← set_survey Example.survey_last;
   index_dict) blank [] =
    (Ok (build_index_dict Example.survey6),
     with_survey (with_index_dict Example.data6 (build_index_dict Example.survey6))
       Example.survey_last,
     []) ∧
  dict_range (build_index_dict Example.survey6) (Example.s2, Example.r3) = Some [5] ∧
  dict_range (build_index_dict Example.survey6) (Example.s1, Example.r1) = Some [0; 1].
Proof.
  split_and!; try (vm_compute; reflexivity).
  apply (bool_decide_unpack _). vm_compute. reflexivity.
Qed.

(** C3, amended.  On a [Data] object whose survey repeats no source and,
    within a source, no receiver, and whose index dictionary has not been
    built yet or was built from this survey, a read of [index_dict] returns
    a dictionary (and every later read returns that same dictionary) in which
    the pairs, taken in the order of the walk (sources in order, receivers in
    order within each), hold consecutive runs of indices: the first starts at
    [0], each has [rx.nD] entries and starts where the one before ends.  Laid
    end to end the runs are exactly [0, 1, ..., survey.nD - 1], so they do
    not overlap and they cover [[0, survey.nD)].  For the example survey the
    runs are [r1 -> [0,2)], [r2 -> [2,5)], [r3 -> [5,6)], [survey.nD] is 6,
    and writing [[7,8,9]] to [dobs] at the run of [r2] and reading that run
    back gives [[7,8,9]]. *)
Theorem index_ranges_tile (self : Data) (sv : Survey) (log : list Warning) :
  unique_keys sv →
  survey self = Some sv →
  _index_dict self = None ∨ _index_dict self = Some (build_index_dict sv) →
  (∃ d : IndexDict,
     index_dict self log = (Ok d, with_index_dict self d, log) ∧
     index_dict (with_index_dict self d) log = (Ok d, with_index_dict self d, log) ∧
     dict_range d <$> walk_keys sv =
       Some <$> ranges_from 0 ((rx_nD ∘ snd) <$> walk_keys sv)) ∧
  concat (ranges_from 0 ((rx_nD ∘ snd) <$> walk_keys sv)) = seq 0 (survey_nD sv) ∧
  NoDup (concat (ranges_from 0 ((rx_nD ∘ snd) <$> walk_keys sv))) ∧
  (dict_range (build_index_dict Example.survey6) (Example.s1, Example.r1) = Some (seq 0 2) ∧
   dict_range (build_index_dict Example.survey6) (Example.s1, Example.r2) = Some (seq 2 3) ∧
   dict_range (build_index_dict Example.survey6) (Example.s2, Example.r3) = Some (seq 5 1) ∧
   survey_nD Example.survey6 = 6 ∧
   (_ ← index_range_write Example.s1 Example.r2 (PyArray [7; 8; 9]%float);
    index_range_read Example.s1 Example.r2) Example.data6 [] =
     (Ok [7; 8; 9]%float,
      with_index_dict
        (with_dobs Example.data6 [PrimFloat.nan; PrimFloat.nan; 7; 8; 9; PrimFloat.nan]%float)
        (build_index_dict Example.survey6),
      [])).
Proof.
  intros Huniq Hsv Hcache.
  assert (concat (ranges_from 0 ((rx_nD ∘ snd) <$> walk_keys sv)) = seq 0 (survey_nD sv))
    as Hcover.
  { rewrite concat_ranges_from. unfold walk_keys, survey_nD.
    by rewrite sum_counts_keys_of. }
  split_and!.
  - exists (build_index_dict sv). split_and!.
    + by apply index_dict_consistent.
    + by apply index_dict_cached.
    + by apply build_index_dict_ranges.
  - exact Hcover.
  - rewrite Hcover. apply NoDup_seq.
  - vm_compute. reflexivity.
  - vm_compute. reflexivity.
  - vm_compute. reflexivity.
  - vm_compute. reflexivity.
  - vm_compute. reflexivity.
Qed.

Lemma index_ranges_tile_witness :
  ∃ d : IndexDict,
    index_dict Example.data6 [] = (Ok d, with_index_dict Example.data6 d, []) ∧
    index_dict (with_index_dict Example.data6 d) [] =
      (Ok d, with_index_dict Example.data6 d, []) ∧
    dict_range d <$> walk_keys Example.survey6 =
      Some <$> ranges_from 0 ((rx_nD ∘ snd) <$> walk_keys Example.survey6).
Proof.
  apply (index_ranges_tile Example.data6 Example.survey6 []).
  - apply (bool_decide_unpack _). vm_compute. reflexivity.
  - reflexivity.
  - left. reflexivity.
Defined.

(** * Reading and writing a run of [dobs] *)

Lemma np_getitem_run (a : ndarray) (b n : nat) :
  b + n ≤ length a →
  np_getitem a (seq b n) = Ok (take n (drop b a)).
Proof.
  intros Hle. unfold np_getitem.
  assert (mapM (λ i, a !! i) (seq b n) = Some (take n (drop b a))) as ->; [|done].
  apply mapM_Some.
  revert b Hle. induction n as [|n IH]; intros b Hle; [constructor|].
  destruct (lookup_lt_is_Some_2 a b) as [x Hx]; [lia|].
  rewrite (drop_S _ _ _ Hx). cbn [seq take]. constructor; [done|].
  apply IH. lia.
Qed.

Lemma write_run (v a : ndarray) (b : nat) :
  b + length v ≤ length a →
  foldl (λ acc iv, <[iv.1 := iv.2]> acc) a (zip (seq b (length v)) v)
  = take b a ++ v ++ drop (b + length v) a.
Proof.
  revert a b. induction v as [|x v IH]; intros a b Hle.
  - cbn. by rewrite Nat.add_0_r, take_drop.
  - cbn [length seq zip zip_with foldl fst snd]. cbn [length] in Hle.
    rewrite IH by (rewrite length_insert; lia).
    rewrite (take_S_r _ _ x) by (apply list_lookup_insert_eq; lia).
    rewrite take_insert_ge by lia.
    rewrite drop_insert_lt by lia.
    replace (S b + length v) with (b + S (length v)) by lia.
    by rewrite <- app_assoc.
Qed.

Lemma run_in_bounds (a : ndarray) (b n : nat) :
  b + n ≤ length a →
  forallb (λ i, bool_decide (i < length a)) (seq b n) = true.
Proof.
  intros Hle. apply forallb_forall. intros i [_ Hi]%in_seq.
  apply bool_decide_eq_true_2. lia.
Qed.

Lemma np_setitem_run (a v : ndarray) (b : nat) :
  b + length v ≤ length a →
  np_setitem a (seq b (length v)) (PyArray v)
  = Ok (take b a ++ v ++ drop (b + length v) a).
Proof.
  intros Hle. unfold np_setitem, np_broadcast_to. rewrite length_seq.
  rewrite decide_True by reflexivity. cbn.
  by rewrite run_in_bounds, write_run.
Qed.

(** An index assignment keeps the length of the array. *)
Lemma np_setitem_length (a a' : ndarray) (index : list nat) (v : PyVal) :
  np_setitem a index v = Ok a' → length a' = length a.
Proof.
  unfold np_setitem. destruct (np_broadcast_to v (length index)) as [vals|]; cbn; [|done].
  destruct (forallb _ index); [|done]. intros [= <-].
  generalize (zip index vals). intros ivs. revert a.
  induction ivs as [|iv ivs IH]; intros a; [done|].
  cbn [foldl]. by rewrite IH, length_insert.
Qed.

(** ** Where a pair's run lies *)

Lemma ranges_from_lookup (counts : list nat) (off i n : nat) :
  counts !! i = Some n →
  ranges_from off counts !! i = Some (seq (off + sum_list (take i counts)) n).
Proof.
  revert off i. induction counts as [|c counts IH]; intros off [|i] Hn; simplify_eq/=.
  - by rewrite Nat.add_0_r.
  - rewrite (IH _ _ Hn). do 2 f_equal. lia.
Qed.

Lemma sum_take_le (counts : list nat) (i n : nat) :
  counts !! i = Some n →
  sum_list (take i counts) + n ≤ sum_list counts.
Proof.
  revert i. induction counts as [|c counts IH]; intros [|i] Hn; simplify_eq/=.
  - lia.
  - specialize (IH _ Hn). lia.
Qed.

Lemma dict_range_at (sv : Survey) (i : nat) (key : Source * Receiver) :
  unique_keys sv →
  walk_keys sv !! i = Some key →
  dict_range (build_index_dict sv) key = Some (seq (offset_of sv i) (rx_nD key.2)) ∧
  offset_of sv i + rx_nD key.2 ≤ survey_nD sv.
Proof.
  intros Huniq Hkey.
  assert (((rx_nD ∘ snd) <$> walk_keys sv) !! i = Some (rx_nD key.2)) as Hcount
    by (by rewrite list_lookup_fmap, Hkey).
  split.
  - pose proof (build_index_dict_ranges sv Huniq) as Hall.
    apply (f_equal (.!! i)) in Hall.
    rewrite !list_lookup_fmap, Hkey, (ranges_from_lookup _ _ _ _ Hcount) in Hall.
    cbn in Hall. by injection Hall.
  - unfold offset_of, survey_nD. rewrite <- sum_counts_keys_of.
    by apply sum_take_le.
Qed.

(** * The deprecated dictionary access *)

Section Silent.
Context {S : Type}.

Lemma silent_ret {A} (a : A) : silent (mret a : M S A).
Proof. intros self log. reflexivity. Qed.

Lemma silent_raise {A} (e : PyExc) : silent (raise e : M S A).
Proof. intros self log. reflexivity. Qed.

Lemma silent_lift {A} (r : result A) : silent (lift r : M S A).
Proof. intros self log. reflexivity. Qed.

Lemma silent_get_self : silent (get_self : M S S).
Proof. intros self log. reflexivity. Qed.

Lemma silent_put_self (self' : S) : silent (put_self self').
Proof. intros self log. reflexivity. Qed.

Lemma silent_bind {A B} (m : M S A) (f : A → M S B) :
  silent m → (∀ a, silent (f a)) → silent (m ≫= f).
Proof.
  intros Hm Hf self log. unfold mbind, M_bind.
  rewrite (Hm self log). destruct (m self []) as [[[a|e] self'] log']; [|reflexivity].
  rewrite (Hf a self' log), (Hf a self' log').
  by destruct (f a self' []) as [[r self''] log''].
Qed.

End Silent.

Create HintDb silent.
#[local] Hint Resolve silent_ret silent_raise silent_lift silent_get_self
  silent_put_self : silent.

Ltac silent_steps :=
  repeat first
    [ apply silent_bind; [|intros ?]
    | progress auto with silent
    | match goal with |- silent (match ?x with _ => _ end) => destruct x end ].

Lemma silent_index_range_read (src : Source) (rx : Receiver) :
  silent (index_range_read src rx).
Proof.
  unfold index_range_read, index_dict, index_lookup, dobs_getitem. silent_steps.
Qed.

Lemma silent_index_range_write (src : Source) (rx : Receiver) (datum : PyVal) :
  silent (index_range_write src rx datum).
Proof.
  unfold index_range_write, index_dict, index_lookup, dobs_setitem. silent_steps.
Qed.

(** Both dictionary accessors are the index-range access after one warning. *)
Lemma __getitem___unfold (key : Source * Receiver) (self : Data) (log : list Warning) :
  __getitem__ key self log =
  index_range_read key.1 key.2 self (log ++ [UserWarning getitem_msg]).
Proof. reflexivity. Qed.

Lemma __setitem___unfold (key : Source * Receiver) (value : PyVal)
    (self : Data) (log : list Warning) :
  __setitem__ key value self log =
  index_range_write key.1 key.2 value self (log ++ [UserWarning setitem_msg]).
Proof. reflexivity. Qed.

Lemma index_lookup_Some (d : IndexDict) (src : Source) (rx : Receiver)
    (index : list nat) (self : Data) (log : list Warning) :
  dict_range d (src, rx) = Some index →
  index_lookup d src rx self log = (Ok index, self, log).
Proof.
  unfold dict_range, index_lookup. cbn [fst snd].
  destruct (d !! src_id src) as [inner|]; cbn; [|done].
  by intros ->.
Qed.

Section PresentKey.
Variables (self : Data) (sv : Survey) (a : ndarray) (log : list Warning).
Variables (i : nat) (src : Source) (rx : Receiver).
Hypothesis Huniq : unique_keys sv.
Hypothesis Hsv : survey self = Some sv.
Hypothesis Hdobs : dobs self = Some a.
Hypothesis Hlen : length a = survey_nD sv.
Hypothesis Hcache :
  _index_dict self = None ∨ _index_dict self = Some (build_index_dict sv).
Hypothesis Hkey : walk_keys sv !! i = Some (src, rx).

Lemma index_range_read_present :
  index_range_read src rx self log =
  (Ok (take (rx_nD rx) (drop (offset_of sv i) a)),
   with_index_dict self (build_index_dict sv), log).
Proof.
  destruct (dict_range_at sv i (src, rx) Huniq Hkey) as [Hrange Hin]. cbn [snd] in *.
  unfold index_range_read.
  erewrite bind_Ok by (by apply index_dict_consistent).
  erewrite bind_Ok by (apply index_lookup_Some; exact Hrange).
  unfold dobs_getitem. run_monad. cbn [with_index_dict dobs]. rewrite Hdobs.
  rewrite np_getitem_run by lia. reflexivity.
Qed.

Lemma index_range_write_present (v : ndarray) :
  length v = rx_nD rx →
  index_range_write src rx (PyArray v) self log =
  (Ok tt,
   with_dobs (with_index_dict self (build_index_dict sv))
     (take (offset_of sv i) a ++ v ++ drop (offset_of sv i + rx_nD rx) a),
   log).
Proof.
  intros Hv.
  destruct (dict_range_at sv i (src, rx) Huniq Hkey) as [Hrange Hin]. cbn [snd] in *.
  unfold index_range_write.
  erewrite bind_Ok by (by apply index_dict_consistent).
  erewrite bind_Ok by (apply index_lookup_Some; exact Hrange).
  unfold dobs_setitem. run_monad. cbn [with_index_dict dobs]. rewrite Hdobs.
  rewrite <- Hv. rewrite np_setitem_run by lia. reflexivity.
Qed.

End PresentKey.

(** C8.  For every key, [data[src, rx]] has the outcome and the effect on
    the object of the index-range read [data.dobs[data.index_dict[src][rx]]],
    and [data[src, rx] = value] those of the index-range write
    [data.dobs[data.index_dict[src][rx]] = value], each after appending
    exactly one deprecation warning to the log: the warning changes neither
    what is returned or raised nor what is written.  When the key is the
    [i]-th (source, receiver) pair of the survey (which repeats no key) and
    [dobs] has the survey's [n] entries, the read returns the [rx.nD]
    entries of [dobs] from the pair's offset on, and the write of an array of
    [rx.nD] entries replaces exactly those entries, both without raising. *)
Theorem dict_access_is_index_range_access
    (self : Data) (log : list Warning) (key : Source * Receiver) :
  (∃ (r : result ndarray) (self' : Data),
     index_range_read key.1 key.2 self log = (r, self', log) ∧
     __getitem__ key self log = (r, self', log ++ [UserWarning getitem_msg])) ∧
  (∀ value : PyVal, ∃ (r : result unit) (self' : Data),
     index_range_write key.1 key.2 value self log = (r, self', log) ∧
     __setitem__ key value self log = (r, self', log ++ [UserWarning setitem_msg])) ∧
  (∀ (sv : Survey) (a : ndarray) (i : nat) (v : ndarray),
     unique_keys sv →
     survey self = Some sv →
     dobs self = Some a →
     length a = survey_nD sv →
     _index_dict self = None ∨ _index_dict self = Some (build_index_dict sv) →
     walk_keys sv !! i = Some key →
     length v = rx_nD key.2 →
     __getitem__ key self log =
       (Ok (take (rx_nD key.2) (drop (offset_of sv i) a)),
        with_index_dict self (build_index_dict sv),
        log ++ [UserWarning getitem_msg]) ∧
     __setitem__ key (PyArray v) self log =
       (Ok tt,
        with_dobs (with_index_dict self (build_index_dict sv))
          (take (offset_of sv i) a ++ v ++ drop (offset_of sv i + rx_nD key.2) a),
        log ++ [UserWarning setitem_msg])).
Proof.
  destruct key as [src rx]. cbn [fst snd]. split_and!.
  - destruct (index_range_read src rx self []) as [[r self'] log'] eqn:Hrun.
    exists r, self'.
    rewrite __getitem___unfold. cbn [fst snd].
    rewrite (silent_index_range_read src rx self log),
      (silent_index_range_read src rx self (log ++ _)), Hrun.
    by split.
  - intros value.
    destruct (index_range_write src rx value self []) as [[r self'] log'] eqn:Hrun.
    exists r, self'.
    rewrite __setitem___unfold. cbn [fst snd].
    rewrite (silent_index_range_write src rx value self log),
      (silent_index_range_write src rx value self (log ++ _)), Hrun.
    by split.
  - intros sv a i v Huniq Hsv Hdobs Hlen Hcache Hkey Hv. split.
    + rewrite __getitem___unfold. cbn [fst snd].
      by apply index_range_read_present.
    + rewrite __setitem___unfold. cbn [fst snd].
      by apply index_range_write_present.
Qed.

(** The theorem at the example: [data[s1, r2]] on the fresh example object. *)
Lemma dict_access_is_index_range_access_witness :
  __getitem__ (Example.s1, Example.r2) Example.data6 [] =
    (Ok (take 3 (drop (offset_of Example.survey6 1) (replicate 6 PrimFloat.nan))),
     with_index_dict Example.data6 (build_index_dict Example.survey6),
     [] ++ [UserWarning getitem_msg]) ∧
  __setitem__ (Example.s1, Example.r2) (PyArray [7; 8; 9]%float) Example.data6 [] =
    (Ok tt,
     with_dobs (with_index_dict Example.data6 (build_index_dict Example.survey6))
       (take (offset_of Example.survey6 1) (replicate 6 PrimFloat.nan) ++ [7; 8; 9]%float
        ++ drop (offset_of Example.survey6 1 + 3) (replicate 6 PrimFloat.nan)),
     [] ++ [UserWarning setitem_msg]).
Proof.
  apply (dict_access_is_index_range_access Example.data6 [] (Example.s1, Example.r2)).
  - apply (bool_decide_unpack _). vm_compute. reflexivity.
  - reflexivity.
  - reflexivity.
  - reflexivity.
  - left. reflexivity.
  - reflexivity.
  - reflexivity.
Defined.

(** * In-place writes and the length check *)

(** C2, as stated, fails: through the dictionary-style setter a value of
    length 1 is written into the run of [r2], which has 3 of the 6 entries
    of the [dobs] of [Data(survey6)]; nothing is raised, the value is
    broadcast. *)
Lemma index_write_skips_length_check :
  (__setitem__ (Example.s1, Example.r2) (PyArray [7]%float) Example.data6 []).1 =
    (Ok tt,
     with_dobs (with_index_dict Example.data6 (build_index_dict Example.survey6))
       [PrimFloat.nan; PrimFloat.nan; 7; 7; 7; PrimFloat.nan]%float).
Proof. vm_compute. reflexivity. Qed.

Lemma __setitem___frame (key : Source * Receiver) (value : PyVal)
    (self self' : Data) (log log' : list Warning) :
  __setitem__ key value self log = (Ok tt, self', log') →
  survey self' = survey self ∧
  length <$> dobs self' = length <$> dobs self ∧
  length <$> standard_deviation self' = length <$> standard_deviation self ∧
  length <$> noise_floor self' = length <$> noise_floor self.
Proof.
  unfold __setitem__, index_dict, index_lookup, dobs_setitem. run_monad.
  intros Hrun.
  repeat (case_match; cbn beta iota in *; simplify_eq/=).
  all: match goal with
       | H : np_setitem _ _ _ = Ok _ |- _ => rewrite (np_setitem_length _ _ _ _ H)
       end.
  all: match goal with H : dobs _ = Some _ |- _ => rewrite H end.
  all: split_and!; done || congruence.
Qed.

Lemma __setitem___not_length_error (key : Source * Receiver) (value : PyVal)
    (self : Data) (log : list Warning) (field : string) (received expected : nat) :
  (__setitem__ key value self log).1.1 ≠ Raise (ValueError_length field received expected).
Proof.
  unfold __setitem__, index_dict, index_lookup, dobs_setitem. run_monad.
  assert (∀ a index, np_setitem a index value ≠ Raise (ValueError_length field received expected))
    as Hnp.
  { intros a index. unfold np_setitem, np_broadcast_to, py_float. run_monad.
    repeat (case_match; cbn beta iota in *; simplify_eq/=); done. }
  repeat (case_match; cbn beta iota in *; simplify_eq/=); try done.
  all: intros [= ->]; by eapply Hnp.
Qed.

(** C2, amended.  On a [Data] object with a survey, the length check runs on
    every whole-array assignment to [dobs], [standard_deviation] and
    [noise_floor]: the array is stored when its length is [survey.nD] and
    refused with the validator's error otherwise.  A write into a run of
    [dobs] through the index map, as the dictionary-style setter does it,
    does not run the check: it never raises the validator's error, and when
    it succeeds the survey and the lengths of [dobs], [standard_deviation]
    and [noise_floor] are what they were, so the equal-length invariant
    still holds. *)
Theorem length_check_on_whole_assignments
    (self : Data) (sv : Survey) (log : list Warning) :
  survey self = Some sv →
  (∀ a : ndarray,
     set_dobs (PyArray a) self log =
     if decide (length a = survey_nD sv)
     then (Ok tt, with_dobs self a, log)
     else (Raise (ValueError_length "dobs" (length a) (survey_nD sv)), self, log)) ∧
  (∀ a : ndarray,
     set_standard_deviation (PyArray a) self log =
     if decide (length a = survey_nD sv)
     then (Ok tt, with_standard_deviation self a, log)
     else (Raise (ValueError_length "standard_deviation" (length a) (survey_nD sv)),
           self, log)) ∧
  (∀ a : ndarray,
     set_noise_floor (PyArray a) self log =
     if decide (length a = survey_nD sv)
     then (Ok tt, with_noise_floor self a, log)
     else (Raise (ValueError_length "noise_floor" (length a) (survey_nD sv)), self, log)) ∧
  (∀ (key : Source * Receiver) (value : PyVal) (field : string) (received expected : nat),
     (__setitem__ key value self log).1.1 ≠
     Raise (ValueError_length field received expected)) ∧
  (∀ (key : Source * Receiver) (value : PyVal) (self' : Data) (log' : list Warning),
     __setitem__ key value self log = (Ok tt, self', log') →
     survey self' = survey self ∧
     length <$> dobs self' = length <$> dobs self ∧
     length <$> standard_deviation self' = length <$> standard_deviation self ∧
     length <$> noise_floor self' = length <$> noise_floor self).
Proof.
  intros Hsv. split_and!.
  - intros a. by apply set_dobs_array.
  - intros a. by apply set_standard_deviation_array.
  - intros a. by apply set_noise_floor_array.
  - intros key value field received expected. apply __setitem___not_length_error.
  - intros key value self' log'. apply __setitem___frame.
Qed.

Lemma length_check_on_whole_assignments_witness :
  set_dobs (PyArray [PrimFloat.one]) Example.data6 [] =
  if decide (length [PrimFloat.one] = survey_nD Example.survey6)
  then (Ok tt, with_dobs Example.data6 [PrimFloat.one], [])
  else (Raise (ValueError_length "dobs" (length [PrimFloat.one]) (survey_nD Example.survey6)),
        Example.data6, []).
Proof.
  apply (length_check_on_whole_assignments Example.data6 Example.survey6 []).
  reflexivity.
Defined.

(** * What an assignment can do *)

Lemma bind_Raise {S A B} (m : M S A) (f : A → M S B) self log e self' log' :
  m self log = (Raise e, self', log') → (m ≫= f) self log = (Raise e, self', log').
Proof. intros H. unfold mbind, M_bind. rewrite H. reflexivity. Qed.

(** An assignment to [dobs], whatever the value, stores an array of
    [survey.nD] entries in that field and nothing else, or raises and leaves
    the object as it was; the log is not touched. *)
Lemma set_dobs_cases (v : PyVal) (self : Data) (log : list Warning) :
  (∃ (a : ndarray) (sv : Survey),
     survey self = Some sv ∧ length a = survey_nD sv ∧
     set_dobs v self log = (Ok tt, with_dobs self a, log)) ∨
  (∃ e : PyExc, set_dobs v self log = (Raise e, self, log)).
Proof.
  unfold set_dobs, _dobs_validator, self_survey_nD, as_array, Array_validate, py_len.
  run_monad.
  destruct v as [z|f|a]; [right; eauto..|].
  destruct (survey self) as [sv|] eqn:Hsv; cbn [value name]; cbn beta iota; [|right; eauto].
  destruct (decide (survey_nD sv ≠ length a)); [right; eauto|].
  left. exists a, sv. split_and!; [done|lia|done].
Qed.

Lemma _uncertainty_validator_cases (ch : change) (self : Data) (log : list Warning) :
  (∃ (a : ndarray) (sv : Survey),
     survey self = Some sv ∧ length a = survey_nD sv ∧
     _uncertainty_validator ch self log = (Ok (mkChange (name ch) (PyArray a)), self, log)) ∨
  (∃ e : PyExc, _uncertainty_validator ch self log = (Raise e, self, log)).
Proof.
  unfold _uncertainty_validator, _dobs_validator, self_survey_nD, nD, py_len. run_monad.
  destruct ch as [field [z|f|a]]; cbn [value name].
  - destruct (survey self) as [sv|]; cbn beta iota; right; eauto.
  - destruct (dobs self) as [d|]; cbn [value name]; cbn beta iota; [|right; eauto].
    destruct (survey self) as [sv|] eqn:Hsv; cbn beta iota; [|right; eauto].
    destruct (decide (survey_nD sv ≠ _)); [right; eauto|].
    left. eexists _, sv. split_and!; [done| |done]. lia.
  - destruct (survey self) as [sv|] eqn:Hsv; cbn beta iota; [|right; eauto].
    destruct (decide (survey_nD sv ≠ length a)); [right; eauto|].
    left. exists a, sv. split_and!; [done|lia|done].
Qed.

Lemma set_standard_deviation_cases (v : PyVal) (self : Data) (log : list Warning) :
  (∃ (a : ndarray) (sv : Survey),
     survey self = Some sv ∧ length a = survey_nD sv ∧
     set_standard_deviation v self log = (Ok tt, with_standard_deviation self a, log)) ∨
  (∃ e : PyExc, set_standard_deviation v self log = (Raise e, self, log)).
Proof.
  unfold set_standard_deviation.
  destruct (UncertaintyArray_validate v) as [v'|e] eqn:Hv; [|right; eauto].
  rewrite (bind_Ok _ _ _ _ v' self log) by reflexivity.
  destruct (_uncertainty_validator_cases (mkChange "standard_deviation" v') self log)
    as [(a & sv & Hsv & Hlen & Hrun) | (e & Hrun)].
  - left. exists a, sv. split_and!; [done..|].
    by rewrite (bind_Ok _ _ _ _ _ _ _ Hrun).
  - right. exists e. by rewrite (bind_Raise _ _ _ _ _ _ _ Hrun).
Qed.

Lemma set_noise_floor_cases (v : PyVal) (self : Data) (log : list Warning) :
  (∃ (a : ndarray) (sv : Survey),
     survey self = Some sv ∧ length a = survey_nD sv ∧
     set_noise_floor v self log = (Ok tt, with_noise_floor self a, log)) ∨
  (∃ e : PyExc, set_noise_floor v self log = (Raise e, self, log)).
Proof.
  unfold set_noise_floor.
  destruct (UncertaintyArray_validate v) as [v'|e] eqn:Hv; [|right; eauto].
  rewrite (bind_Ok _ _ _ _ v' self log) by reflexivity.
  destruct (_uncertainty_validator_cases (mkChange "noise_floor" v') self log)
    as [(a & sv & Hsv & Hlen & Hrun) | (e & Hrun)].
  - left. exists a, sv. split_and!; [done..|].
    by rewrite (bind_Ok _ _ _ _ _ _ _ Hrun).
  - right. exists e. by rewrite (bind_Raise _ _ _ _ _ _ _ Hrun).
Qed.

(** X1.  Whatever value is assigned to [dobs], [standard_deviation] or
    [noise_floor], the assignment either stores an array of [survey.nD]
    entries in that one field and changes nothing else, or it raises and
    leaves the whole object as it was; it never writes to the warning log. *)
Theorem assignment_all_or_nothing (v : PyVal) (self : Data) (log : list Warning) :
  ((∃ (a : ndarray) (sv : Survey),
      survey self = Some sv ∧ length a = survey_nD sv ∧
      set_dobs v self log = (Ok tt, with_dobs self a, log)) ∨
   (∃ e : PyExc, set_dobs v self log = (Raise e, self, log))) ∧
  ((∃ (a : ndarray) (sv : Survey),
      survey self = Some sv ∧ length a = survey_nD sv ∧
      set_standard_deviation v self log = (Ok tt, with_standard_deviation self a, log)) ∨
   (∃ e : PyExc, set_standard_deviation v self log = (Raise e, self, log))) ∧
  ((∃ (a : ndarray) (sv : Survey),
      survey self = Some sv ∧ length a = survey_nD sv ∧
      set_noise_floor v self log = (Ok tt, with_noise_floor self a, log)) ∨
   (∃ e : PyExc, set_noise_floor v self log = (Raise e, self, log))).
Proof.
  split_and!.
  - apply set_dobs_cases.
  - apply set_standard_deviation_cases.
  - apply set_noise_floor_cases.
Qed.

(** X2.  A float scalar assigned to [standard_deviation] or [noise_floor]
    is broadcast to [len(dobs)] copies and then checked against
    [survey.nD]: with no [dobs] it raises [TypeError], with no survey
    [AttributeError]; otherwise it is stored when [len(dobs)] equals
    [survey.nD] and refused, with [len(dobs)] as the length received, when it
    does not, as on the example object after its survey has been replaced by
    one that expects 2 data. *)
Theorem scalar_broadcast_uses_len_dobs (s : float) (self : Data) (log : list Warning) :
  set_standard_deviation (PyFloat s) self log =
    match dobs self, survey self with
    | None, _ => (Raise (TypeError "object of type 'NoneType' has no len()"), self, log)
    | Some d, None => (Raise (AttributeError "nD"), self, log)
    | Some d, Some sv =>
        if decide (length d = survey_nD sv)
        then (Ok tt, with_standard_deviation self (replicate (length d) s), log)
        else (Raise (ValueError_length "standard_deviation" (length d) (survey_nD sv)),
              self, log)
    end ∧
  set_noise_floor (PyFloat s) self log =
    match dobs self, survey self with
    | None, _ => (Raise (TypeError "object of type 'NoneType' has no len()"), self, log)
    | Some d, None => (Raise (AttributeError "nD"), self, log)
    | Some d, Some sv =>
        if decide (length d = survey_nD sv)
        then (Ok tt, with_noise_floor self (replicate (length d) s), log)
        else (Raise (ValueError_length "noise_floor" (length d) (survey_nD sv)), self, log)
    end ∧
  set_standard_deviation (PyFloat 0.5) (with_survey Example.data6 Example.survey_twice) [] =
    (Raise (ValueError_length "standard_deviation" 6 2),
     with_survey Example.data6 Example.survey_twice, []).
Proof.
  split_and!; [| |vm_compute; reflexivity].
  - destruct (dobs self) as [d|] eqn:Hd; [destruct (survey self) as [sv|] eqn:Hsv|].
    + rewrite (set_standard_deviation_float self log s d Hd).
      rewrite (set_standard_deviation_array self sv log Hsv).
      by rewrite length_replicate.
    + unfold set_standard_deviation, _uncertainty_validator, _dobs_validator,
        self_survey_nD, nD.
      cbn [UncertaintyArray_validate value name]. run_monad. by rewrite Hd, Hsv.
    + unfold set_standard_deviation, _uncertainty_validator, nD.
      cbn [UncertaintyArray_validate value name]. run_monad. by rewrite Hd.
  - destruct (dobs self) as [d|] eqn:Hd; [destruct (survey self) as [sv|] eqn:Hsv|].
    + rewrite (set_noise_floor_float self log s d Hd).
      rewrite (set_noise_floor_array self sv log Hsv).
      by rewrite length_replicate.
    + unfold set_noise_floor, _uncertainty_validator, _dobs_validator,
        self_survey_nD, nD.
      cbn [UncertaintyArray_validate value name]. run_monad. by rewrite Hd, Hsv.
    + unfold set_noise_floor, _uncertainty_validator, nD.
      cbn [UncertaintyArray_validate value name]. run_monad. by rewrite Hd.
Qed.

(** * The constructor with arguments *)

Lemma consistent_intro (sv : Survey) (a sd nf : ndarray) (cache : option IndexDict) :
  length a = survey_nD sv → length sd = survey_nD sv → length nf = survey_nD sv →
  consistent (mkData (Some sv) (Some a) (Some sd) (Some nf) cache).
Proof. intros. unfold consistent. cbn. done. Qed.

Lemma consistent_inv (d : Data) :
  consistent d →
  ∃ (sv : Survey) (a sd nf : ndarray),
    survey d = Some sv ∧ dobs d = Some a ∧
    standard_deviation d = Some sd ∧ noise_floor d = Some nf ∧
    length a = survey_nD sv ∧ length sd = survey_nD sv ∧ length nf = survey_nD sv.
Proof.
  destruct d as [[sv|] [a|] [sd|] [nf|] cache]; unfold consistent; cbn; try done.
  intros (? & ? & ?). by exists sv, a, sd, nf.
Qed.

(** Whatever its arguments, a constructor that completes has stored three
    arrays of [survey.nD] entries and written nothing to the log. *)
Lemma __init___shape (sv : Survey) (dobs0 sd0 nf0 : option PyVal)
    (d : Data) (log log' : list Warning) :
  __init__ sv dobs0 sd0 nf0 blank log = (Ok tt, d, log') →
  log' = log ∧
  ∃ a sd nf : ndarray,
    d = mkData (Some sv) (Some a) (Some sd) (Some nf) None ∧
    length a = survey_nD sv ∧ length sd = survey_nD sv ∧ length nf = survey_nD sv.
Proof.
  unfold __init__.
  rewrite (bind_Ok _ _ _ _ tt (with_survey blank sv) log) by reflexivity.
  destruct (set_dobs_cases (default (PyArray (np_scale PrimFloat.nan (np_ones (survey_nD sv))))
                              dobs0) (with_survey blank sv) log)
    as [(a & sv1 & [= <-] & Ha & Hrun) | (e & Hrun)];
    [rewrite (bind_Ok _ _ _ _ _ _ _ Hrun) | by rewrite (bind_Raise _ _ _ _ _ _ _ Hrun)].
  destruct (set_standard_deviation_cases (default (PyArray (np_zeros (survey_nD sv))) sd0)
              (with_dobs (with_survey blank sv) a) log)
    as [(sd & sv2 & [= <-] & Hsd & Hrun2) | (e & Hrun2)];
    [rewrite (bind_Ok _ _ _ _ _ _ _ Hrun2) | by rewrite (bind_Raise _ _ _ _ _ _ _ Hrun2)].
  destruct (set_noise_floor_cases (default (PyArray (np_zeros (survey_nD sv))) nf0)
              (with_standard_deviation (with_dobs (with_survey blank sv) a) sd) log)
    as [(nf & sv3 & [= <-] & Hnf & Hrun3) | (e & Hrun3)];
    rewrite Hrun3; [|done].
  intros [= <- <-]. split; [done|]. by exists a, sd, nf.
Qed.

(** X3.  Whatever arrays or scalars the constructor is given, when it
    completes the object is consistent: the survey is the one passed,
    [dobs], [standard_deviation] and [noise_floor] each have [survey.nD]
    entries (so [nD] is [survey.nD]), no index dictionary is cached yet, and
    nothing was written to the warning log. *)
Theorem constructed_is_consistent (sv : Survey) (dobs0 sd0 nf0 : option PyVal)
    (d : Data) (log log' : list Warning) :
  __init__ sv dobs0 sd0 nf0 blank log = (Ok tt, d, log') →
  consistent d ∧ survey d = Some sv ∧ _index_dict d = None ∧
  nD d log' = (Ok (survey_nD sv), d, log') ∧ log' = log.
Proof.
  intros Hinit. apply __init___shape in Hinit as (-> & a & sd & nf & -> & Ha & Hsd & Hnf).
  split_and!; [by apply (consistent_intro sv a sd nf None)|done|done| |done].
  unfold nD. run_monad. cbn. by rewrite Ha.
Qed.

Lemma constructed_is_consistent_witness :
  consistent
    (mkData (Some Example.survey6) (Some [1; 2; 3; 4; 5; 6]%float)
       (Some (replicate 6 0.5%float)) (Some (replicate 6 3%float)) None).
Proof.
  apply (constructed_is_consistent Example.survey6
           (Some (PyArray [1; 2; 3; 4; 5; 6]%float)) (Some (PyFloat 0.5)) (Some (PyInt 3))
           _ [] []).
  vm_compute. reflexivity.
Defined.

(** X4.  [Data(survey, dobs=a, standard_deviation=s, noise_floor=f)] with an
    array [a] of [survey.nD] entries and float scalars [s] and [f] completes
    and stores [a], [survey.nD] copies of [s] and [survey.nD] copies of [f]:
    [dobs] is assigned before the scalars are broadcast to its length. *)
Theorem constructor_broadcasts_scalars
    (sv : Survey) (a : ndarray) (s f : float) (log : list Warning) :
  length a = survey_nD sv →
  __init__ sv (Some (PyArray a)) (Some (PyFloat s)) (Some (PyFloat f)) blank log =
    (Ok tt,
     mkData (Some sv) (Some a) (Some (replicate (survey_nD sv) s))
       (Some (replicate (survey_nD sv) f)) None,
     log).
Proof.
  intros Ha. unfold __init__. cbn [default from_option id].
  rewrite (bind_Ok _ _ _ _ tt (with_survey blank sv) log) by reflexivity.
  erewrite bind_Ok; cycle 1.
  { rewrite (set_dobs_array _ sv) by reflexivity. by rewrite decide_True. }
  erewrite bind_Ok; cycle 1.
  { rewrite (set_standard_deviation_float _ _ s a) by reflexivity.
    rewrite (set_standard_deviation_array _ sv) by reflexivity.
    rewrite length_replicate, decide_True by done. reflexivity. }
  rewrite (set_noise_floor_float _ _ f a) by reflexivity.
  rewrite (set_noise_floor_array _ sv) by reflexivity.
  rewrite length_replicate, decide_True by done. by rewrite Ha.
Qed.

Lemma constructor_broadcasts_scalars_witness :
  __init__ Example.survey6 (Some (PyArray [1; 2; 3; 4; 5; 6]%float))
    (Some (PyFloat 0.5)) (Some (PyFloat 0.25)) blank [] =
    (Ok tt,
     mkData (Some Example.survey6) (Some [1; 2; 3; 4; 5; 6]%float)
       (Some (replicate (survey_nD Example.survey6) 0.5%float))
       (Some (replicate (survey_nD Example.survey6) 0.25%float)) None,
     []).
Proof.
  apply (constructor_broadcasts_scalars Example.survey6 [1; 2; 3; 4; 5; 6]%float).
  reflexivity.
Defined.

(** X5.  A constructor given a [dobs] array whose length is not
    [survey.nD] raises the length error for [dobs] and stops there: the
    object is left with its survey attached and none of the three arrays
    assigned, whatever was passed for the other two. *)
Theorem constructor_stops_at_bad_dobs
    (sv : Survey) (a : ndarray) (sd0 nf0 : option PyVal) (log : list Warning) :
  length a ≠ survey_nD sv →
  __init__ sv (Some (PyArray a)) sd0 nf0 blank log =
    (Raise (ValueError_length "dobs" (length a) (survey_nD sv)),
     mkData (Some sv) None None None None, log).
Proof.
  intros Ha. unfold __init__. cbn [default from_option id].
  rewrite (bind_Ok _ _ _ _ tt (with_survey blank sv) log) by reflexivity.
  erewrite bind_Raise; [reflexivity|].
  rewrite (set_dobs_array _ sv) by reflexivity. by rewrite decide_False.
Qed.

Lemma constructor_stops_at_bad_dobs_witness :
  __init__ Example.survey6 (Some (PyArray [1; 2]%float)) (Some (PyFloat 0.5)) None blank [] =
    (Raise (ValueError_length "dobs" (length [1; 2]%float) (survey_nD Example.survey6)),
     mkData (Some Example.survey6) None None None None, []).
Proof.
  apply (constructor_stops_at_bad_dobs Example.survey6 [1; 2]%float).
  vm_compute. lia.
Defined.

(** * Sequences of calls *)

Lemma silent_run {S A} (m : M S A) (self : S) (log : list Warning) :
  silent m → ∃ (r : result A) (self' : S), m self log = (r, self', log).
Proof.
  intros Hm. rewrite (Hm self log).
  destruct (m self []) as [[r self'] log']. eauto.
Qed.

Lemma silent_set_dobs (v : PyVal) : silent (set_dobs v).
Proof.
  unfold set_dobs, _dobs_validator, self_survey_nD, as_array. silent_steps.
Qed.

Lemma silent__uncertainty_validator (ch : change) : silent (_uncertainty_validator ch).
Proof.
  unfold _uncertainty_validator, _dobs_validator, self_survey_nD, nD. silent_steps.
Qed.

Lemma silent_set_standard_deviation (v : PyVal) : silent (set_standard_deviation v).
Proof.
  unfold set_standard_deviation, as_array.
  apply silent_bind; [apply silent_lift|intros v'].
  apply silent_bind; [apply silent__uncertainty_validator|intros ch]. silent_steps.
Qed.

Lemma silent_set_noise_floor (v : PyVal) : silent (set_noise_floor v).
Proof.
  unfold set_noise_floor, as_array.
  apply silent_bind; [apply silent_lift|intros v'].
  apply silent_bind; [apply silent__uncertainty_validator|intros ch]. silent_steps.
Qed.

Lemma silent_nD : silent nD.
Proof. unfold nD. silent_steps. Qed.

Lemma silent_index_dict : silent index_dict.
Proof. unfold index_dict. silent_steps. Qed.

(** The getter returns or raises, and leaves the object and the log alone. *)
Lemma uncertainty_reads_only (self : Data) (log : list Warning) :
  ∃ r : result ndarray, uncertainty self log = (r, self, log).
Proof.
  unfold uncertainty, nD. run_monad.
  destruct (standard_deviation self) as [sd|], (noise_floor self) as [nf|],
    (dobs self) as [d|]; cbn beta iota; eauto.
  - destruct (np_multiply sd (np_absolute d)) as [p|]; cbn beta iota; eauto.
    destruct (np_add (np_zeros (length d)) p) as [u|]; cbn beta iota; eauto.
    destruct (np_add u nf) as [u'|]; cbn beta iota; eauto.
  - destruct (np_multiply sd (np_absolute d)) as [p|]; cbn beta iota; eauto.
    destruct (np_add (np_zeros (length d)) p) as [u|]; cbn beta iota; eauto.
  - destruct (np_add (np_zeros (length d)) nf) as [u|]; cbn beta iota; eauto.
Qed.

Lemma uncertainty_setter_unchanged (v : PyVal) (self : Data) (log : list Warning) :
  ∃ e : PyExc, uncertainty_setter v self log = (Raise e, self, log).
Proof.
  unfold uncertainty_setter, nD, getattr_undefined. run_monad.
  destruct (dobs self); eauto.
Qed.

Lemma index_dict_cases (self : Data) (log : list Warning) :
  (∃ d : IndexDict,
     index_dict self log = (Ok d, with_index_dict self d, log)) ∨
  (∃ e : PyExc, index_dict self log = (Raise e, self, log)).
Proof.
  unfold index_dict. run_monad.
  destruct (_index_dict self) as [d|] eqn:Hc; [|destruct (survey self) as [sv|]].
  - left. exists d. destruct self. cbn in *. by subst.
  - left. eauto.
  - right. eauto.
Qed.

(** What the dictionary-style accessors can change: the cache, and for the
    setter the entries of [dobs], never its length. *)
Lemma index_range_write_shape (src : Source) (rx : Receiver) (v : PyVal)
    (self d : Data) (log log' : list Warning) (r : result unit) :
  index_range_write src rx v self log = (r, d, log') →
  survey d = survey self ∧
  length <$> dobs d = length <$> dobs self ∧
  standard_deviation d = standard_deviation self ∧
  noise_floor d = noise_floor self.
Proof.
  unfold index_range_write.
  destruct (index_dict_cases self log) as [(ix & Hrun) | (e & Hrun)];
    [rewrite (bind_Ok _ _ _ _ _ _ _ Hrun) | rewrite (bind_Raise _ _ _ _ _ _ _ Hrun)];
    [|by intros [= _ <- _]].
  unfold index_lookup, dobs_setitem. run_monad.
  destruct (ix !! src_id src) as [inner|]; cbn beta iota; [|by intros [= _ <- _]].
  destruct (inner !! rx_id rx) as [index|]; cbn beta iota; [|by intros [= _ <- _]].
  cbn [with_index_dict dobs].
  destruct (dobs self) as [a|] eqn:Hd; cbn beta iota; [|intros [= _ <- _]; cbn; by rewrite ?Hd].
  destruct (np_setitem a index v) as [a'|] eqn:Hset; cbn beta iota;
    intros [= _ <- _]; cbn; rewrite ?Hd; [|done].
  by rewrite (np_setitem_length _ _ _ _ Hset).
Qed.

Lemma index_range_read_shape (src : Source) (rx : Receiver)
    (self d : Data) (log log' : list Warning) (r : result ndarray) :
  index_range_read src rx self log = (r, d, log') →
  survey d = survey self ∧ dobs d = dobs self ∧
  standard_deviation d = standard_deviation self ∧
  noise_floor d = noise_floor self.
Proof.
  unfold index_range_read.
  destruct (index_dict_cases self log) as [(ix & Hrun) | (e & Hrun)];
    [rewrite (bind_Ok _ _ _ _ _ _ _ Hrun) | rewrite (bind_Raise _ _ _ _ _ _ _ Hrun)];
    [|by intros [= _ <- _]].
  unfold index_lookup, dobs_getitem. run_monad.
  destruct (ix !! src_id src) as [inner|]; cbn beta iota; [|by intros [= _ <- _]].
  destruct (inner !! rx_id rx) as [index|]; cbn beta iota; [|by intros [= _ <- _]].
  cbn [with_index_dict dobs].
  destruct (dobs self) as [a|] eqn:Hd; cbn beta iota; intros [= _ <- _]; cbn; by rewrite ?Hd.
Qed.

Lemma same_shape_refl (self : Data) : same_shape self self.
Proof. by unfold same_shape. Qed.

Lemma same_shape_consistent (d self : Data) :
  same_shape d self → consistent self → consistent d.
Proof.
  intros (Hs & Hd & Hsd & Hnf) Hc.
  apply consistent_inv in Hc as (sv & a & sd & nf & E1 & E2 & E3 & E4 & Ha & Hb & Hn).
  rewrite E1 in Hs. rewrite E2 in Hd. rewrite E3 in Hsd. rewrite E4 in Hnf.
  destruct d as [[sv'|] [a'|] [sd'|] [nf'|] cache]; simplify_eq/=.
  unfold consistent. cbn. split_and!; congruence.
Qed.

Lemma with_field_same_shape (self : Data) (a : ndarray) (sv : Survey) :
  consistent self → survey self = Some sv → length a = survey_nD sv →
  same_shape (with_dobs self a) self ∧
  same_shape (with_standard_deviation self a) self ∧
  same_shape (with_noise_floor self a) self.
Proof.
  intros Hc Hsv Ha.
  apply consistent_inv in Hc as (sv' & a' & sd & nf & E1 & E2 & E3 & E4 & Ha' & Hb & Hn).
  unfold same_shape. cbn. rewrite E2, E3, E4. cbn. split_and!; congruence.
Qed.

(** A call on a consistent object leaves the shape of the data as it was. *)
Lemma do_call_same_shape (c : call) (self : Data) (log : list Warning) :
  consistent self → same_shape (do_call c (self, log)).1 self.
Proof.
  intros Hc.
  assert (∀ v, same_shape (set_dobs v self log).1.2 self) as Hdobs.
  { intros v. destruct (set_dobs_cases v self log) as [(a & sv & Hsv & Ha & ->) | (e & ->)];
      cbn; [by apply (with_field_same_shape self a sv)|apply same_shape_refl]. }
  assert (∀ v log, same_shape (set_standard_deviation v self log).1.2 self) as Hsd.
  { intros v l.
    destruct (set_standard_deviation_cases v self l) as [(a & sv & Hsv & Ha & ->) | (e & ->)];
      cbn; [by apply (with_field_same_shape self a sv)|apply same_shape_refl]. }
  assert (∀ v log, same_shape (set_noise_floor v self log).1.2 self) as Hnf.
  { intros v l.
    destruct (set_noise_floor_cases v self l) as [(a & sv & Hsv & Ha & ->) | (e & ->)];
      cbn; [by apply (with_field_same_shape self a sv)|apply same_shape_refl]. }
  destruct c; unfold do_call, left_by; cbn [fst snd].
  - specialize (Hdobs v). by destruct (set_dobs v self log) as [[r d] l].
  - specialize (Hsd v log). by destruct (set_standard_deviation v self log) as [[r d] l].
  - specialize (Hnf v log). by destruct (set_noise_floor v self log) as [[r d] l].
  - destruct (uncertainty_reads_only self log) as [r ->]. apply same_shape_refl.
  - destruct (uncertainty_setter_unchanged v self log) as [e ->]. apply same_shape_refl.
  - unfold nD. run_monad. destruct (dobs self); apply same_shape_refl.
  - destruct (index_dict_cases self log) as [(ix & ->) | (e & ->)];
      [by unfold same_shape|apply same_shape_refl].
  - change (std_setter v self log)
      with (set_standard_deviation v self (log ++ [UserWarning std_msg])).
    specialize (Hsd v (log ++ [UserWarning std_msg])).
    by destruct (set_standard_deviation v self _) as [[r d] l].
  - apply same_shape_refl.
  - change (eps_setter v self log)
      with (set_noise_floor v self (log ++ [UserWarning eps_msg])).
    specialize (Hnf v (log ++ [UserWarning eps_msg])).
    by destruct (set_noise_floor v self _) as [[r d] l].
  - apply same_shape_refl.
  - rewrite __setitem___unfold.
    destruct (index_range_write key.1 key.2 v self _) as [[r d] l] eqn:Hrun.
    apply index_range_write_shape in Hrun as (E1 & E2 & E3 & E4).
    unfold same_shape. cbn [fst]. by rewrite E1, E2, E3, E4.
  - rewrite __getitem___unfold.
    destruct (index_range_read key.1 key.2 self _) as [[r d] l] eqn:Hrun.
    apply index_range_read_shape in Hrun as (E1 & E2 & E3 & E4).
    unfold same_shape. cbn [fst]. by rewrite E1, E2, E3, E4.
  - apply same_shape_refl.
  - apply same_shape_refl.
Qed.

Lemma do_calls_consistent (cs : list call) (self : Data) (log : list Warning) :
  consistent self →
  consistent (do_calls cs (self, log)).1 ∧ survey (do_calls cs (self, log)).1 = survey self.
Proof.
  revert self log. induction cs as [|c cs IH]; intros self log Hc; [done|].
  change (do_calls (c :: cs) (self, log)) with (do_calls cs (do_call c (self, log))).
  pose proof (do_call_same_shape c self log Hc) as Hshape.
  destruct (do_call c (self, log)) as [d l]. cbn [fst] in Hshape.
  destruct (IH d l (same_shape_consistent _ _ Hshape Hc)) as [Hc' Hs'].
  split; [exact Hc'|]. rewrite Hs'. apply Hshape.
Qed.

(** X6.  Consistency is an invariant of the class: starting from a
    consistent object, after any sequence of uses of its members (survey
    reassignment apart), failed ones included, the survey is the same and
    [dobs], [standard_deviation] and [noise_floor] still have [survey.nD]
    entries each.  In particular this holds of every object a constructor
    returned. *)
Theorem calls_keep_consistent (cs : list call) (self : Data) (log : list Warning) :
  consistent self →
  consistent (do_calls cs (self, log)).1 ∧
  survey (do_calls cs (self, log)).1 = survey self ∧
  (∀ (sv : Survey) (dobs0 sd0 nf0 : option PyVal) (d : Data) (log0 log' : list Warning),
     __init__ sv dobs0 sd0 nf0 blank log0 = (Ok tt, d, log') →
     consistent (do_calls cs (d, log')).1).
Proof.
  intros Hc. destruct (do_calls_consistent cs self log Hc) as [H1 H2].
  split_and!; [done..|].
  intros sv dobs0 sd0 nf0 d log0 log' Hinit.
  apply __init___shape in Hinit as (-> & a & sd & nf & -> & Ha & Hsd & Hnf).
  apply do_calls_consistent. by apply (consistent_intro sv a sd nf None).
Qed.

Lemma calls_keep_consistent_witness :
  consistent
    (do_calls
       [Assign_standard_deviation (PyFloat 0.5); Assign_dobs (PyArray [1; 2]%float);
        Set_item (Example.s1, Example.r2) (PyArray [7; 8; 9]%float);
        Assign_uncertainty (PyFloat 1); Read_uncertainty]
       (Example.data6, [])).1.
Proof.
  apply (calls_keep_consistent _ Example.data6 []).
  apply (bool_decide_unpack _). vm_compute. reflexivity.
Defined.

Lemma left_by_silent {A} (m : M Data A) (self : Data) (log : list Warning) :
  silent m → (left_by m (self, log)).2 = log.
Proof.
  intros Hm. unfold left_by. cbn [fst snd].
  by destruct (silent_run m self log Hm) as (r & d & ->).
Qed.

Lemma left_by_warn {A} (msg : string) (m : M Data A) (self : Data) (log : list Warning) :
  silent m → (left_by (_ ← warn msg; m) (self, log)).2 = log ++ [UserWarning msg].
Proof.
  intros Hm. unfold left_by. cbn [fst snd].
  change ((_ ← warn msg; m) self log) with (m self (log ++ [UserWarning msg])).
  by destruct (silent_run m self (log ++ [UserWarning msg]) Hm) as (r & d & ->).
Qed.

Lemma do_call_log (c : call) (self : Data) (log : list Warning) :
  (do_call c (self, log)).2 = log ++ notice c.
Proof.
  destruct c; cbn [do_call notice]; rewrite ?app_nil_r.
  - apply left_by_silent, silent_set_dobs.
  - apply left_by_silent, silent_set_standard_deviation.
  - apply left_by_silent, silent_set_noise_floor.
  - unfold left_by. cbn [fst snd]. by destruct (uncertainty_reads_only self log) as [r ->].
  - unfold left_by. cbn [fst snd].
    by destruct (uncertainty_setter_unchanged v self log) as [e ->].
  - apply left_by_silent, silent_nD.
  - apply left_by_silent, silent_index_dict.
  - apply (left_by_warn std_msg), silent_set_standard_deviation.
  - reflexivity.
  - apply (left_by_warn eps_msg), silent_set_noise_floor.
  - reflexivity.
  - apply (left_by_warn setitem_msg (index_range_write key.1 key.2 v)),
      silent_index_range_write.
  - apply (left_by_warn getitem_msg (index_range_read key.1 key.2)),
      silent_index_range_read.
  - reflexivity.
  - reflexivity.
Qed.

(** X7.  Over any sequence of uses of a [Data] object in which the
    [uncertainty] getter, the one member that computes with NumPy, is not
    read, the warning log grows by exactly the notices of the deprecated
    members used ([std], [eps], dictionary-style get and set, [tovec]), one
    per use and in order, whether the use succeeded or raised; the
    assignments to the properties and to [uncertainty], [nD], [index_dict]
    and [fromvec] issue none. *)
Theorem warnings_are_the_deprecation_notices
    (cs : list call) (self : Data) (log : list Warning) :
  Read_uncertainty ∉ cs →
  (do_calls cs (self, log)).2 = log ++ (cs ≫= notice).
Proof.
  revert self log. induction cs as [|c cs IH]; intros self log Hcs.
  - cbn. by rewrite app_nil_r.
  - apply not_elem_of_cons in Hcs as [_ Hcs].
    change (do_calls (c :: cs) (self, log)) with (do_calls cs (do_call c (self, log))).
    pose proof (do_call_log c self log) as Hlog.
    destruct (do_call c (self, log)) as [d l]. cbn [snd] in Hlog.
    rewrite (IH d l Hcs), Hlog. cbn. by rewrite app_assoc.
Qed.

Lemma warnings_are_the_deprecation_notices_witness :
  (do_calls
     [Assign_std (PyFloat 0.5); Read_nD; Set_item (Example.s1, Example.r2) (PyArray [7]%float);
      Get_item (Example.s2, Example.r1); Assign_dobs (PyFloat 1); Call_tovec;
      Call_fromvec (PyInt 0)]
     (Example.data6, [])).2 =
  [] ++ ([Assign_std (PyFloat 0.5); Read_nD;
          Set_item (Example.s1, Example.r2) (PyArray [7]%float);
          Get_item (Example.s2, Example.r1); Assign_dobs (PyFloat 1); Call_tovec;
          Call_fromvec (PyInt 0)] ≫= notice).
Proof.
  apply (warnings_are_the_deprecation_notices
           [Assign_std (PyFloat 0.5); Read_nD;
            Set_item (Example.s1, Example.r2) (PyArray [7]%float);
            Get_item (Example.s2, Example.r1); Assign_dobs (PyFloat 1); Call_tovec;
            Call_fromvec (PyInt 0)] Example.data6 []).
  rewrite !not_elem_of_cons. split_and!; [discriminate..|apply not_elem_of_nil].
Defined.

Lemma do_call_same_data (c : call) (self : Data) (log : list Warning) :
  writes_data c = false → same_data (do_call c (self, log)).1 self.
Proof.
  destruct c; cbn [writes_data]; intros [=]; unfold do_call, left_by; cbn [fst snd].
  - by destruct (uncertainty_reads_only self log) as [r ->].
  - by destruct (uncertainty_setter_unchanged v self log) as [e ->].
  - unfold nD. run_monad. by destruct (dobs self).
  - by destruct (index_dict_cases self log) as [(ix & ->) | (e & ->)].
  - done.
  - done.
  - rewrite __getitem___unfold.
    destruct (index_range_read key.1 key.2 self _) as [[r d] l] eqn:Hrun.
    by apply index_range_read_shape in Hrun.
  - done.
  - done.
Qed.

(** X8.  Only the assignments to [dobs], [standard_deviation] and
    [noise_floor] (also under their names [std] and [eps]) and the
    dictionary-style set can change the data: after any sequence of other
    uses ([uncertainty] read or assigned, [nD], [index_dict], [std] and
    [eps] read, dictionary-style get, [tovec], [fromvec]) the survey and the
    three arrays are what they were. *)
Theorem reads_leave_data (cs : list call) (self : Data) (log : list Warning) :
  Forall (λ c, writes_data c = false) cs →
  same_data (do_calls cs (self, log)).1 self.
Proof.
  revert self log. induction cs as [|c cs IH]; intros self log Hcs; [done|].
  apply Forall_cons in Hcs as [Hc Hcs].
  change (do_calls (c :: cs) (self, log)) with (do_calls cs (do_call c (self, log))).
  pose proof (do_call_same_data c self log Hc) as (E1 & E2 & E3 & E4).
  destruct (do_call c (self, log)) as [d l]. cbn [fst] in *.
  destruct (IH d l Hcs) as (F1 & F2 & F3 & F4).
  unfold same_data. by rewrite F1, F2, F3, F4.
Qed.

Lemma reads_leave_data_witness :
  same_data
    (do_calls
       [Read_uncertainty; Assign_uncertainty (PyFloat 1); Read_index_dict;
        Get_item (Example.s1, Example.r2); Read_std; Call_tovec; Call_fromvec (PyInt 0)]
       (Example.data6, [])).1
    Example.data6.
Proof.
  apply (reads_leave_data _ Example.data6 []).
  repeat constructor.
Defined.

(** * Uncertainty of missing and of scaled data *)

Lemma Prim2SF_nan_inv (x : float) : Prim2SF x = S754_nan → x = PrimFloat.nan.
Proof. intros Hx. by rewrite <- (SF2Prim_Prim2SF x), Hx. Qed.

Lemma float_mul_nan_r (s : float) : PrimFloat.mul s PrimFloat.nan = PrimFloat.nan.
Proof.
  apply Prim2SF_nan_inv. rewrite mul_spec.
  change (Prim2SF PrimFloat.nan) with S754_nan.
  by destruct (Prim2SF s) as [[]|[]| |[] m e].
Qed.

Lemma float_add_nan_l (f : float) : PrimFloat.add PrimFloat.nan f = PrimFloat.nan.
Proof.
  apply Prim2SF_nan_inv. rewrite add_spec.
  change (Prim2SF PrimFloat.nan) with S754_nan. reflexivity.
Qed.

(** The entry the getter computes from a missing datum. *)
Lemma uncertainty_entry_of_nan (s f : float) :
  PrimFloat.add
    (PrimFloat.add PrimFloat.zero (PrimFloat.mul s (PrimFloat.abs PrimFloat.nan))) f
  = PrimFloat.nan.
Proof.
  change (PrimFloat.abs PrimFloat.nan) with PrimFloat.nan.
  rewrite float_mul_nan_r.
  change (PrimFloat.add PrimFloat.zero PrimFloat.nan) with PrimFloat.nan.
  apply float_add_nan_l.
Qed.

(** X9.  Where [dobs] holds the missing-value sentinel the uncertainty is
    the sentinel too, whatever the standard deviation and the noise floor:
    on an object whose three arrays have one length, the getter returns an
    array with NaN at every position at which [dobs] has NaN. *)
Theorem missing_data_have_nan_uncertainty
    (self : Data) (log : list Warning) (d sd nf : ndarray) (i : nat) :
  dobs self = Some d →
  standard_deviation self = Some sd →
  noise_floor self = Some nf →
  length sd = length d →
  length nf = length d →
  d !! i = Some PrimFloat.nan →
  ∃ u : ndarray, uncertainty self log = (Ok u, self, log) ∧ u !! i = Some PrimFloat.nan.
Proof.
  intros Hd Hsd Hnf Hl1 Hl2 Hi.
  eexists. split; [by apply (uncertainty_runs self log d sd nf)|].
  assert (i < length d) as Hlt by (by eapply lookup_lt_Some).
  destruct (lookup_lt_is_Some_2 sd i) as [s Hs]; [lia|].
  destruct (lookup_lt_is_Some_2 nf i) as [f Hf]; [lia|].
  rewrite !lookup_zip_with, list_lookup_fmap, Hs, Hi, Hf.
  unfold np_zeros. rewrite lookup_replicate_2 by done. cbn.
  by rewrite uncertainty_entry_of_nan.
Qed.

Lemma missing_data_have_nan_uncertainty_witness :
  ∃ u : ndarray,
    uncertainty
      (mkData (Some Example.survey6) (Some [1; PrimFloat.nan; 3; 4; 5; 6]%float)
         (Some (replicate 6 0.5%float)) (Some (replicate 6 0.25%float)) None) [] =
      (Ok u,
       mkData (Some Example.survey6) (Some [1; PrimFloat.nan; 3; 4; 5; 6]%float)
         (Some (replicate 6 0.5%float)) (Some (replicate 6 0.25%float)) None, []) ∧
    u !! 1 = Some PrimFloat.nan.
Proof.
  apply (missing_data_have_nan_uncertainty _ []
           [1; PrimFloat.nan; 3; 4; 5; 6]%float (replicate 6 0.5%float)
           (replicate 6 0.25%float) 1); reflexivity.
Defined.

Lemma fresh_uncertainty_entries (n : nat) :
  zip_with PrimFloat.add
    (zip_with PrimFloat.add (np_zeros n)
       (zip_with PrimFloat.mul (replicate n PrimFloat.zero)
          (PrimFloat.abs <$> replicate n PrimFloat.nan)))
    (replicate n PrimFloat.zero)
  = replicate n PrimFloat.nan.
Proof.
  unfold np_zeros. induction n as [|n IH]; [done|].
  cbn [replicate fmap list_fmap zip_with]. by rewrite IH.
Qed.

(** X10.  The uncertainty of a freshly constructed [Data(survey)] is not
    zero but [survey.nD] NaNs: the zero standard deviation is multiplied by
    the absolute value of the NaN-filled [dobs]. *)
Theorem fresh_uncertainty_is_nan (sv : Survey) (log : list Warning) :
  ∃ d : Data,
    __init__ sv None None None blank log = (Ok tt, d, log) ∧
    uncertainty d log = (Ok (replicate (survey_nD sv) PrimFloat.nan), d, log).
Proof.
  exists (fresh sv). split; [apply __init___defaults|].
  rewrite (uncertainty_runs (fresh sv) log (replicate (survey_nD sv) PrimFloat.nan)
             (replicate (survey_nD sv) PrimFloat.zero)
             (replicate (survey_nD sv) PrimFloat.zero))
    by (rewrite ?length_replicate; reflexivity).
  by rewrite length_replicate, fresh_uncertainty_entries.
Qed.

Lemma scaled_entries (s f : float) (d : ndarray) :
  zip_with PrimFloat.add
    (zip_with PrimFloat.mul (replicate (length d) s) (PrimFloat.abs <$> d))
    (replicate (length d) f)
  = (λ x, PrimFloat.add (PrimFloat.mul s (PrimFloat.abs x)) f) <$> d.
Proof. induction d as [|x d IH]; [done|]. cbn. by rewrite IH. Qed.

(** X11.  After [data.standard_deviation = s] and [data.noise_floor = f]
    with float scalars, on an object whose [dobs] has [survey.nD] entries,
    reading [uncertainty] succeeds and every entry has the value of
    [s * abs(dobs) + f] at that position (equal as floats, NaN where that is
    NaN). *)
Theorem uncertainty_after_scalars
    (self : Data) (sv : Survey) (d : ndarray) (log : list Warning) (s f : float) :
  survey self = Some sv →
  dobs self = Some d →
  length d = survey_nD sv →
  ∃ u : ndarray,
    (_ ← set_standard_deviation (PyFloat s); _ ← set_noise_floor (PyFloat f); uncertainty)
      self log =
      (Ok u,
       with_noise_floor (with_standard_deviation self (replicate (survey_nD sv) s))
         (replicate (survey_nD sv) f),
       log) ∧
    Forall2 (λ x y, float_same x y = true) u
      ((λ x, PrimFloat.add (PrimFloat.mul s (PrimFloat.abs x)) f) <$> d).
Proof.
  intros Hsv Hd Hlen.
  destruct (scalar_assignment_is_broadcast_aux self sv d log s Hsv Hd Hlen) as [Hs _].
  destruct (scalar_assignment_is_broadcast_aux
              (with_standard_deviation self (replicate (survey_nD sv) s)) sv d log f
              Hsv Hd Hlen) as [_ Hf].
  eexists. split.
  - rewrite (bind_Ok _ _ _ _ _ _ _ Hs), (bind_Ok _ _ _ _ _ _ _ Hf).
    apply (uncertainty_runs _ log d (replicate (survey_nD sv) s) (replicate (survey_nD sv) f));
      try done; by rewrite length_replicate.
  - rewrite <- scaled_entries, <- Hlen.
    set (p := zip_with PrimFloat.mul (replicate (length d) s) (PrimFloat.abs <$> d)).
    assert (length p = length d) as Hp
      by (unfold p; rewrite length_zip_with, length_replicate, length_fmap; lia).
    replace (np_zeros (length d)) with (np_zeros (length p)) by (by rewrite Hp).
    eapply Forall2_impl.
    + apply uncertainty_entries. by rewrite Hp, length_replicate.
    + by intros x y [Hxy _].
Qed.

Lemma uncertainty_after_scalars_witness :
  ∃ u : ndarray,
    (_ ← set_standard_deviation (PyFloat 0.5); _ ← set_noise_floor (PyFloat 0.25); uncertainty)
      (with_dobs Example.data6 [1; -2; 3; -4; 5; -6]%float) [] =
      (Ok u,
       with_noise_floor
         (with_standard_deviation (with_dobs Example.data6 [1; -2; 3; -4; 5; -6]%float)
            (replicate (survey_nD Example.survey6) 0.5%float))
         (replicate (survey_nD Example.survey6) 0.25%float),
       []) ∧
    Forall2 (λ x y, float_same x y = true) u
      ((λ x, PrimFloat.add (PrimFloat.mul 0.5 (PrimFloat.abs x)) 0.25)
         <$> [1; -2; 3; -4; 5; -6]%float).
Proof.
  apply (uncertainty_after_scalars (with_dobs Example.data6 [1; -2; 3; -4; 5; -6]%float)
           Example.survey6 [1; -2; 3; -4; 5; -6]%float [] 0.5%float 0.25%float);
    reflexivity.
Defined.

(** * The cached index dictionary and a reassigned survey *)

(** X12.  The index dictionary is built from the survey attached at the
    first read and never again: if the survey is reassigned after that read,
    [index_dict] still returns the dictionary of the old survey, whereas a
    reassignment before the first read gives the dictionary of the new
    one. *)
Theorem reassigned_survey_keeps_old_index
    (self : Data) (sv1 sv2 : Survey) (log : list Warning) :
  survey self = Some sv1 →
  _index_dict self = None →
  (_ ← index_dict; _ ← set_survey sv2; index_dict) self log =
    (Ok (build_index_dict sv1),
     with_survey (with_index_dict self (build_index_dict sv1)) sv2, log) ∧
  (_ ← set_survey sv2; index_dict) self log =
    (Ok (build_index_dict sv2),
     with_index_dict (with_survey self sv2) (build_index_dict sv2), log).
Proof.
  intros Hsv Hcache. split.
  - rewrite (bind_Ok _ _ _ _ _ _ _ (index_dict_fresh self sv1 log Hsv Hcache)).
    rewrite (bind_Ok _ _ _ _ tt
               (with_survey (with_index_dict self (build_index_dict sv1)) sv2) log)
      by reflexivity.
    by apply index_dict_cached.
  - rewrite (bind_Ok _ _ _ _ tt (with_survey self sv2) log) by reflexivity.
    by apply index_dict_fresh.
Qed.

Lemma reassigned_survey_keeps_old_index_witness :
  (_ ← index_dict; _ ← set_survey Example.survey_twice; index_dict) Example.data6 [] =
    (Ok (build_index_dict Example.survey6),
     with_survey (with_index_dict Example.data6 (build_index_dict Example.survey6))
       Example.survey_twice, []).
Proof.
  apply (reassigned_survey_keeps_old_index Example.data6 Example.survey6
           Example.survey_twice []); reflexivity.
Defined.

(** * Writing a run and reading runs back *)

Lemma length_written (a v : ndarray) (b : nat) :
  b + length v ≤ length a →
  length (take b a ++ v ++ drop (b + length v) a) = length a.
Proof.
  intros Hle. rewrite !length_app, length_take_le, length_drop by lia. lia.
Qed.

Lemma read_written (a v : ndarray) (b : nat) :
  b + length v ≤ length a →
  take (length v) (drop b (take b a ++ v ++ drop (b + length v) a)) = v.
Proof.
  intros Hle.
  rewrite drop_app_length' by (rewrite length_take_le; lia).
  by rewrite take_app_length.
Qed.





Section WrittenRun.
Variables (self : Data) (sv : Survey) (a v : ndarray) (log : list Warning).
Variables (i : nat) (src : Source) (rx : Receiver).
Hypothesis Huniq : unique_keys sv.
Hypothesis Hsv : survey self = Some sv.
Hypothesis Hdobs : dobs self = Some a.
Hypothesis Hlen : length a = survey_nD sv.
Hypothesis Hcache :
  _index_dict self = None ∨ _index_dict self = Some (build_index_dict sv).
Hypothesis Hkey : walk_keys sv !! i = Some (src, rx).
Hypothesis Hv : length v = rx_nD rx.

(** The object after [data[src, rx] = v]. *)
Let written : Data :=
  with_dobs (with_index_dict self (build_index_dict sv))
    (take (offset_of sv i) a ++ v ++ drop (offset_of sv i + rx_nD rx) a).

Lemma written_length :
  length (take (offset_of sv i) a ++ v ++ drop (offset_of sv i + rx_nD rx) a)
  = survey_nD sv.
Proof.
  destruct (dict_range_at sv i (src, rx) Huniq Hkey) as [_ Hin]. cbn [snd] in Hin.
  rewrite <- Hv. rewrite length_written by lia. done.
Qed.

Lemma read_after_write_at (j : nat) (src' : Source) (rx' : Receiver) :
  walk_keys sv !! j = Some (src', rx') →
  (_ ← __setitem__ (src, rx) (PyArray v); __getitem__ (src', rx')) self log =
    (Ok (take (rx_nD rx')
           (drop (offset_of sv j)
              (take (offset_of sv i) a ++ v ++ drop (offset_of sv i + rx_nD rx) a))),
     written,
     (log ++ [UserWarning setitem_msg]) ++ [UserWarning getitem_msg]).
Proof.
  intros Hj.
  erewrite bind_Ok; cycle 1.
  { rewrite __setitem___unfold. cbn [fst snd].
    by apply (index_range_write_present self sv a _ i src rx). }
  rewrite __getitem___unfold. cbn [fst snd].
  rewrite (index_range_read_present _ sv
             (take (offset_of sv i) a ++ v ++ drop (offset_of sv i + rx_nD rx) a)
             _ j src' rx'); try done.
  - apply written_length.
  - by right.
Qed.

End WrittenRun.

(** X13.  Dictionary-style write then read is a round trip on [float64]
    arrays: on an object whose [dobs] has [survey.nD] entries and whose
    index dictionary is unset or was built from its survey, for the [i]-th
    (source, receiver) pair of a survey without repeated keys and an array
    [v] of [rx.nD] entries, [data[src, rx] = v] followed by [data[src, rx]]
    returns [v]; the two calls leave one deprecation warning each, and
    [dobs] then holds [v] in the run of the pair and its old entries
    elsewhere. *)
Theorem dict_write_then_read
    (self : Data) (sv : Survey) (a v : ndarray) (log : list Warning)
    (i : nat) (key : Source * Receiver) :
  unique_keys sv →
  survey self = Some sv →
  dobs self = Some a →
  length a = survey_nD sv →
  _index_dict self = None ∨ _index_dict self = Some (build_index_dict sv) →
  walk_keys sv !! i = Some key →
  length v = rx_nD key.2 →
  ∃ self' : Data,
    (_ ← __setitem__ key (PyArray v); __getitem__ key) self log =
      (Ok v, self', (log ++ [UserWarning setitem_msg]) ++ [UserWarning getitem_msg]) ∧
    survey self' = Some sv ∧
    dobs self' =
      Some (take (offset_of sv i) a ++ v ++ drop (offset_of sv i + rx_nD key.2) a).
Proof.
  intros Huniq Hsv Hdobs Hlen Hcache Hkey Hv. destruct key as [src rx]. cbn [snd] in *.
  exists (with_dobs (with_index_dict self (build_index_dict sv))
            (take (offset_of sv i) a ++ v ++ drop (offset_of sv i + rx_nD rx) a)).
  split_and!.
  - rewrite (read_after_write_at self sv a v log i src rx Huniq Hsv Hdobs Hlen Hcache Hkey Hv
               i src rx Hkey).
    destruct (dict_range_at sv i (src, rx) Huniq Hkey) as [_ Hin]. cbn [snd] in Hin.
    rewrite <- Hv. rewrite read_written by lia. reflexivity.
  - exact Hsv.
  - reflexivity.
Qed.

Lemma dict_write_then_read_witness :
  ∃ self' : Data,
    (_ ← __setitem__ (Example.s2, Example.r3) (PyArray [4]%float);
     __getitem__ (Example.s2, Example.r3)) Example.data6 [] =
      (Ok [4]%float, self',
       ([] ++ [UserWarning setitem_msg]) ++ [UserWarning getitem_msg]) ∧
    survey self' = Some Example.survey6 ∧
    dobs self' =
      Some (take (offset_of Example.survey6 2) (replicate 6 PrimFloat.nan) ++ [4]%float
            ++ drop (offset_of Example.survey6 2 + 1) (replicate 6 PrimFloat.nan)).
Proof.
  apply (dict_write_then_read Example.data6 Example.survey6 (replicate 6 PrimFloat.nan)
           [4]%float [] 2 (Example.s2, Example.r3)).
  - apply (bool_decide_unpack _). vm_compute. reflexivity.
  - reflexivity.
  - reflexivity.
  - reflexivity.
  - left. reflexivity.
  - reflexivity.
  - reflexivity.
Defined.



(** * Keys the survey does not have *)

Lemma empty_dicts_no_range (ss : list Source) (d : IndexDict) (s r : nat) :
  d !! s ≫= (.!! r) = None →
  foldl (λ d src, <[src_id src := ∅]> d) d ss !! s ≫= (.!! r) = None.
Proof.
  revert d. induction ss as [|src ss IH]; intros d Hd; cbn [foldl]; [done|].
  apply IH. destruct (decide (src_id src = s)) as [<-|Hne].
  - by rewrite lookup_insert_eq.
  - by rewrite lookup_insert_ne.
Qed.

Lemma src_loop_no_range (ss : list Source) (b : nat) (d : IndexDict) (s r : nat) :
  Forall (λ src, src_id src = s → r ∉ rx_id <$> receiver_list src) ss →
  (foldl index_src_step (b, b, d) ss).2 !! s ≫= (.!! r) = d !! s ≫= (.!! r).
Proof.
  revert b d. induction ss as [|src ss IH]; intros b d Hss; cbn [foldl]; [done|].
  apply Forall_cons in Hss as [Hsrc Hss].
  rewrite index_src_step_run, IH by assumption.
  destruct (decide (src_id src = s)) as [<-|Hne].
  - apply rx_loop_other_receiver. by apply Hsrc.
  - by rewrite rx_loop_other_source.
Qed.

(** A pair that no source of the survey has is not in the dictionary. *)
Lemma dict_range_absent (sv : Survey) (key : Source * Receiver) :
  Forall (λ src, src_id src = src_id key.1 → rx_id key.2 ∉ rx_id <$> receiver_list src)
    (source_list sv) →
  dict_range (build_index_dict sv) key = None.
Proof.
  intros Habs. unfold dict_range, build_index_dict.
  change (?m ≫= (λ inner, inner !! rx_id key.2)) with (m ≫= (.!! rx_id key.2)).
  rewrite src_loop_no_range by assumption.
  apply empty_dicts_no_range. by rewrite lookup_empty.
Qed.

Lemma index_lookup_None {S} (d : IndexDict) (src : Source) (rx : Receiver)
    (self : S) (log : list Warning) :
  dict_range d (src, rx) = None →
  index_lookup d src rx self log = (Raise KeyError, self, log).
Proof.
  unfold dict_range, index_lookup. cbn [fst snd].
  destruct (d !! src_id src) as [inner|]; cbn; [|done].
  by intros ->.
Qed.

(** X15.  Dictionary-style access with a key the survey does not have (a
    source that is not in the source list, or a receiver that is not in the
    receiver list of that source) raises [KeyError], for get and for set
    alike; the deprecation warning has been emitted and the index dictionary
    cached by then, and the data are untouched. *)
Theorem absent_key_raises_KeyError
    (self : Data) (sv : Survey) (log : list Warning)
    (key : Source * Receiver) (value : PyVal) :
  survey self = Some sv →
  _index_dict self = None ∨ _index_dict self = Some (build_index_dict sv) →
  Forall (λ src, src_id src = src_id key.1 → rx_id key.2 ∉ rx_id <$> receiver_list src)
    (source_list sv) →
  __getitem__ key self log =
    (Raise KeyError, with_index_dict self (build_index_dict sv),
     log ++ [UserWarning getitem_msg]) ∧
  __setitem__ key value self log =
    (Raise KeyError, with_index_dict self (build_index_dict sv),
     log ++ [UserWarning setitem_msg]).
Proof.
  intros Hsv Hcache Habs. apply dict_range_absent in Habs. destruct key as [src rx].
  split.
  - rewrite __getitem___unfold. unfold index_range_read. cbn [fst snd].
    erewrite bind_Ok by (by apply index_dict_consistent).
    erewrite bind_Raise; [reflexivity|]. by apply index_lookup_None.
  - rewrite __setitem___unfold. unfold index_range_write. cbn [fst snd].
    erewrite bind_Ok by (by apply index_dict_consistent).
    erewrite bind_Raise; [reflexivity|]. by apply index_lookup_None.
Qed.

Lemma absent_key_raises_KeyError_witness :
  __getitem__ (Example.s2, Example.r1) Example.data6 [] =
    (Raise KeyError, with_index_dict Example.data6 (build_index_dict Example.survey6),
     [] ++ [UserWarning getitem_msg]) ∧
  __setitem__ (Example.s2, Example.r1) (PyFloat 1) Example.data6 [] =
    (Raise KeyError, with_index_dict Example.data6 (build_index_dict Example.survey6),
     [] ++ [UserWarning setitem_msg]).
Proof.
  apply (absent_key_raises_KeyError Example.data6 Example.survey6 []
           (Example.s2, Example.r1) (PyFloat 1)).
  - reflexivity.
  - left. reflexivity.
  - apply (bool_decide_unpack _). vm_compute. reflexivity.
Defined.

(** * Broadcasting in a dictionary-style write *)

Lemma np_setitem_run_values (a vals : ndarray) (b : nat) (value : PyVal) :
  np_broadcast_to value (length vals) = Ok vals →
  b + length vals ≤ length a →
  np_setitem a (seq b (length vals)) value
  = Ok (take b a ++ vals ++ drop (b + length vals) a).
Proof.
  intros Hvals Hle. unfold np_setitem. rewrite length_seq, Hvals. cbn.
  by rewrite run_in_bounds, write_run.
Qed.

Lemma np_setitem_mismatch (a : ndarray) (index : list nat) (value : PyVal) (e : PyExc) :
  np_broadcast_to value (length index) = Raise e →
  np_setitem a index value = Raise e.
Proof. intros Hvals. unfold np_setitem. by rewrite Hvals. Qed.

Section BroadcastWrite.
Variables (self : Data) (sv : Survey) (a : ndarray) (log : list Warning).
Variables (i : nat) (src : Source) (rx : Receiver).
Hypothesis Huniq : unique_keys sv.
Hypothesis Hsv : survey self = Some sv.
Hypothesis Hdobs : dobs self = Some a.
Hypothesis Hlen : length a = survey_nD sv.
Hypothesis Hcache :
  _index_dict self = None ∨ _index_dict self = Some (build_index_dict sv).
Hypothesis Hkey : walk_keys sv !! i = Some (src, rx).

Lemma __setitem___broadcast (value : PyVal) (vals : ndarray) :
  np_broadcast_to value (rx_nD rx) = Ok vals →
  length vals = rx_nD rx →
  __setitem__ (src, rx) value self log =
    (Ok tt,
     with_dobs (with_index_dict self (build_index_dict sv))
       (take (offset_of sv i) a ++ vals ++ drop (offset_of sv i + rx_nD rx) a),
     log ++ [UserWarning setitem_msg]).
Proof.
  intros Hvals Hl.
  destruct (dict_range_at sv i (src, rx) Huniq Hkey) as [Hrange Hin]. cbn [snd] in *.
  rewrite __setitem___unfold. unfold index_range_write. cbn [fst snd].
  erewrite bind_Ok by (by apply index_dict_consistent).
  erewrite bind_Ok by (apply index_lookup_Some; exact Hrange).
  unfold dobs_setitem. run_monad. cbn [with_index_dict dobs]. rewrite Hdobs.
  rewrite <- Hl in *. rewrite (np_setitem_run_values a vals _ value) by (done || lia).
  reflexivity.
Qed.

Lemma __setitem___mismatch (value : PyVal) (e : PyExc) :
  np_broadcast_to value (rx_nD rx) = Raise e →
  __setitem__ (src, rx) value self log =
    (Raise e, with_index_dict self (build_index_dict sv),
     log ++ [UserWarning setitem_msg]).
Proof.
  intros Hvals.
  destruct (dict_range_at sv i (src, rx) Huniq Hkey) as [Hrange Hin]. cbn [snd] in *.
  rewrite __setitem___unfold. unfold index_range_write. cbn [fst snd].
  erewrite bind_Ok by (by apply index_dict_consistent).
  erewrite bind_Ok by (apply index_lookup_Some; exact Hrange).
  unfold dobs_setitem. run_monad. cbn [with_index_dict dobs]. rewrite Hdobs.
  rewrite (np_setitem_mismatch a _ value e) by (by rewrite length_seq).
  reflexivity.
Qed.

End BroadcastWrite.

(** X16.  A dictionary-style write of a float scalar, or of an array with a
    single entry, into a [float64] [dobs] fills the whole run of the key
    with that value: on an object whose [dobs] has [survey.nD] entries and
    whose index dictionary is unset or was built from its survey, for the
    [i]-th pair of a survey without repeated keys, [data[src, rx] = s] and
    [data[src, rx] = [s]] have the same outcome, which is that the [rx.nD]
    entries of the run are [s] and the rest of [dobs] is as it was. *)
Theorem dict_write_broadcasts_scalar
    (self : Data) (sv : Survey) (a : ndarray) (log : list Warning)
    (i : nat) (key : Source * Receiver) (s : float) :
  unique_keys sv →
  survey self = Some sv →
  dobs self = Some a →
  length a = survey_nD sv →
  _index_dict self = None ∨ _index_dict self = Some (build_index_dict sv) →
  walk_keys sv !! i = Some key →
  ∃ self' : Data,
    __setitem__ key (PyFloat s) self log =
      (Ok tt, self', log ++ [UserWarning setitem_msg]) ∧
    __setitem__ key (PyArray [s]) self log =
      (Ok tt, self', log ++ [UserWarning setitem_msg]) ∧
    survey self' = Some sv ∧
    dobs self' =
      Some (take (offset_of sv i) a ++ replicate (rx_nD key.2) s
            ++ drop (offset_of sv i + rx_nD key.2) a).
Proof.
  intros Huniq Hsv Hdobs Hlen Hcache Hkey. destruct key as [src rx]. cbn [snd].
  assert (__setitem__ (src, rx) (PyFloat s) self log =
            (Ok tt,
             with_dobs (with_index_dict self (build_index_dict sv))
               (take (offset_of sv i) a ++ replicate (rx_nD rx) s
                ++ drop (offset_of sv i + rx_nD rx) a),
             log ++ [UserWarning setitem_msg])) as Hscalar.
  { apply (__setitem___broadcast self sv a log i src rx); try done.
    apply length_replicate. }
  exists (with_dobs (with_index_dict self (build_index_dict sv))
            (take (offset_of sv i) a ++ replicate (rx_nD rx) s
             ++ drop (offset_of sv i + rx_nD rx) a)).
  split_and!; [exact Hscalar| |exact Hsv|reflexivity].
  apply (__setitem___broadcast self sv a log i src rx); try done;
    [|apply length_replicate].
  unfold np_broadcast_to. cbn [length].
  destruct (decide (1 = rx_nD rx)) as [<-|Hne]; reflexivity.
Qed.

Lemma dict_write_broadcasts_scalar_witness :
  ∃ self' : Data,
    __setitem__ (Example.s1, Example.r2) (PyFloat 7) Example.data6 [] =
      (Ok tt, self', [] ++ [UserWarning setitem_msg]) ∧
    __setitem__ (Example.s1, Example.r2) (PyArray [7]%float) Example.data6 [] =
      (Ok tt, self', [] ++ [UserWarning setitem_msg]) ∧
    survey self' = Some Example.survey6 ∧
    dobs self' =
      Some (take (offset_of Example.survey6 1) (replicate 6 PrimFloat.nan)
            ++ replicate 3 7%float
            ++ drop (offset_of Example.survey6 1 + 3) (replicate 6 PrimFloat.nan)).
Proof.
  apply (dict_write_broadcasts_scalar Example.data6 Example.survey6
           (replicate 6 PrimFloat.nan) [] 1 (Example.s1, Example.r2) 7%float).
  - apply (bool_decide_unpack _). vm_compute. reflexivity.
  - reflexivity.
  - reflexivity.
  - reflexivity.
  - left. reflexivity.
  - reflexivity.
Defined.

(** X17.  A dictionary-style write of an array whose length is neither
    [rx.nD] nor 1 is refused with NumPy's broadcast error, which names the
    length given and [rx.nD]; [dobs] and the uncertainty arrays are left as
    they were (the index dictionary has been cached and the warning
    emitted). *)
Theorem dict_write_rejects_other_lengths
    (self : Data) (sv : Survey) (a v : ndarray) (log : list Warning)
    (i : nat) (key : Source * Receiver) :
  unique_keys sv →
  survey self = Some sv →
  dobs self = Some a →
  length a = survey_nD sv →
  _index_dict self = None ∨ _index_dict self = Some (build_index_dict sv) →
  walk_keys sv !! i = Some key →
  length v ≠ rx_nD key.2 →
  length v ≠ 1 →
  __setitem__ key (PyArray v) self log =
    (Raise (ValueError_broadcast (length v) (rx_nD key.2)),
     with_index_dict self (build_index_dict sv),
     log ++ [UserWarning setitem_msg]).
Proof.
  intros Huniq Hsv Hdobs Hlen Hcache Hkey Hn H1. destruct key as [src rx]. cbn [snd] in *.
  apply (__setitem___mismatch self sv a log i src rx); try done.
  unfold np_broadcast_to. rewrite decide_False by done.
  destruct v as [|x [|y v]]; cbn in *; done.
Qed.

Lemma dict_write_rejects_other_lengths_witness :
  __setitem__ (Example.s1, Example.r2) (PyArray [7; 8]%float) Example.data6 [] =
    (Raise (ValueError_broadcast (length [7; 8]%float) 3),
     with_index_dict Example.data6 (build_index_dict Example.survey6),
     [] ++ [UserWarning setitem_msg]).
Proof.
  apply (dict_write_rejects_other_lengths Example.data6 Example.survey6
           (replicate 6 PrimFloat.nan) [7; 8]%float [] 1 (Example.s1, Example.r2)).
  - apply (bool_decide_unpack _). vm_compute. reflexivity.
  - reflexivity.
  - reflexivity.
  - reflexivity.
  - left. reflexivity.
  - reflexivity.
  - vm_compute. lia.
  - vm_compute. lia.
Defined.

(** * The renamed properties *)

(** X18.  [std] and [eps] are [standard_deviation] and [noise_floor] under
    their old names: assigning through them has, for every value, the
    outcome and the effect of assigning the property itself after one
    deprecation warning, and reading them (or calling [tovec]) returns the
    property (or [dobs]) after one warning.  So an array of [survey.nD]
    entries assigned to [std] is what [std] then returns. *)
Theorem std_eps_are_aliases (v : PyVal) (self : Data) (log : list Warning) :
  (∃ (r : result unit) (d : Data),
     set_standard_deviation v self log = (r, d, log) ∧
     std_setter v self log = (r, d, log ++ [UserWarning std_msg])) ∧
  (∃ (r : result unit) (d : Data),
     set_noise_floor v self log = (r, d, log) ∧
     eps_setter v self log = (r, d, log ++ [UserWarning eps_msg])) ∧
  std self log = (Ok (standard_deviation self), self, log ++ [UserWarning std_msg]) ∧
  eps self log = (Ok (noise_floor self), self, log ++ [UserWarning eps_msg]) ∧
  tovec self log = (Ok (dobs self), self, log ++ [UserWarning tovec_msg]) ∧
  (∀ (sv : Survey) (a : ndarray),
     survey self = Some sv → length a = survey_nD sv →
     (_ ← std_setter (PyArray a); std) self log =
       (Ok (Some a), with_standard_deviation self a,
        (log ++ [UserWarning std_msg]) ++ [UserWarning std_msg]) ∧
     (_ ← eps_setter (PyArray a); eps) self log =
       (Ok (Some a), with_noise_floor self a,
        (log ++ [UserWarning eps_msg]) ++ [UserWarning eps_msg])).
Proof.
  split_and!; try reflexivity.
  - destruct (silent_run (set_standard_deviation v) self log
                (silent_set_standard_deviation v)) as (r & d & Hrun).
    exists r, d. split; [exact Hrun|].
    change (std_setter v self log)
      with (set_standard_deviation v self (log ++ [UserWarning std_msg])).
    rewrite (silent_set_standard_deviation v self log) in Hrun.
    rewrite (silent_set_standard_deviation v self (log ++ _)).
    destruct (set_standard_deviation v self []) as [[r0 d0] l0]. by simplify_eq.
  - destruct (silent_run (set_noise_floor v) self log (silent_set_noise_floor v))
      as (r & d & Hrun).
    exists r, d. split; [exact Hrun|].
    change (eps_setter v self log)
      with (set_noise_floor v self (log ++ [UserWarning eps_msg])).
    rewrite (silent_set_noise_floor v self log) in Hrun.
    rewrite (silent_set_noise_floor v self (log ++ _)).
    destruct (set_noise_floor v self []) as [[r0 d0] l0]. by simplify_eq.
  - intros sv a Hsv Ha. split.
    + erewrite bind_Ok; cycle 1.
      { change (std_setter (PyArray a) self log)
          with (set_standard_deviation (PyArray a) self (log ++ [UserWarning std_msg])).
        rewrite (set_standard_deviation_array self sv _ Hsv). by rewrite decide_True. }
      reflexivity.
    + erewrite bind_Ok; cycle 1.
      { change (eps_setter (PyArray a) self log)
          with (set_noise_floor (PyArray a) self (log ++ [UserWarning eps_msg])).
        rewrite (set_noise_floor_array self sv _ Hsv). by rewrite decide_True. }
      reflexivity.
Qed.

(** * SyntheticData with arguments *)

Lemma set_dclean_cases (v : PyVal) (self : SyntheticData) (log : list Warning) :
  (∃ (a : ndarray) (sv : Survey),
     survey (base self) = Some sv ∧ length a = survey_nD sv ∧
     set_dclean v self log = (Ok tt, mkSyntheticData (base self) (Some a), log)) ∨
  (∃ e : PyExc, set_dclean v self log = (Raise e, self, log)).
Proof.
  destruct v as [z|f|a]; [right; eexists; reflexivity..|].
  destruct (survey (base self)) as [sv|] eqn:Hsv.
  - rewrite (set_dclean_array self sv log a Hsv).
    destruct (decide (length a = survey_nD sv)); [left; eauto|right; eauto].
  - right. unfold set_dclean, _dclean_validator, inherited, _dobs_validator, self_survey_nD.
    cbn [Array_validate]. run_monad. rewrite Hsv. destruct self. eauto.
Qed.

(** X19.  Whatever arrays or scalars the [SyntheticData] constructor is
    given, when it completes the [Data] part is consistent, [dclean] has
    [survey.nD] entries too, and nothing was written to the warning log. *)
Theorem synthetic_constructed_is_consistent
    (sv : Survey) (dobs0 dclean0 sd0 nf0 : option PyVal)
    (o : SyntheticData) (log log' : list Warning) :
  SyntheticData_init sv dobs0 dclean0 sd0 nf0 blank_synthetic log = (Ok tt, o, log') →
  consistent (base o) ∧ survey (base o) = Some sv ∧
  (∃ c : ndarray, dclean o = Some c ∧ length c = survey_nD sv) ∧
  log' = log.
Proof.
  unfold SyntheticData_init.
  destruct (__init__ sv dobs0 sd0 nf0 blank log) as [[[[]|e] d] l] eqn:Hinit.
  2:{ erewrite bind_Raise; [done|]. apply inherited_run. exact Hinit. }
  pose proof (__init___shape _ _ _ _ _ _ _ Hinit) as (-> & a & sd & nf & -> & Ha & Hsd & Hnf).
  erewrite bind_Ok; cycle 1.
  { apply inherited_run. exact Hinit. }
  erewrite bind_Ok; cycle 1.
  { apply inherited_run. reflexivity. }
  cbn [dclean blank_synthetic].
  match goal with
  | |- set_dclean ?v ?self log = _ → _ =>
      destruct (set_dclean_cases v self log) as [(c & sv' & [= <-] & Hc & ->) | (e & ->)]
  end; [|done].
  intros [= <- <-]. cbn [base dclean].
  split_and!;
    first [ by apply (consistent_intro sv a sd nf None) | by exists c | done ].
Qed.

Lemma synthetic_constructed_is_consistent_witness :
  consistent
    (base (mkSyntheticData
             (mkData (Some Example.survey6) (Some [1; 2; 3; 4; 5; 6]%float)
                (Some (replicate 6 0.5%float)) (Some (replicate 6 PrimFloat.zero)) None)
             (Some [1; 2; 3; 4; 5; 6]%float))).
Proof.
  apply (synthetic_constructed_is_consistent Example.survey6
           (Some (PyArray [1; 2; 3; 4; 5; 6]%float)) (Some (PyArray [1; 2; 3; 4; 5; 6]%float))
           (Some (PyFloat 0.5)) None _ [] []).
  vm_compute. reflexivity.
Defined.

(** X20.  A [SyntheticData] constructor given a [dclean] array whose length
    is not [survey.nD] raises the length error for [dclean] only after the
    [Data] part has been built: the object is left with its three [Data]
    arrays assigned and [dclean] unset. *)
Theorem synthetic_constructor_bad_dclean
    (sv : Survey) (c : ndarray) (log : list Warning) :
  length c ≠ survey_nD sv →
  SyntheticData_init sv None (Some (PyArray c)) None None blank_synthetic log =
    (Raise (ValueError_length "dclean" (length c) (survey_nD sv)),
     mkSyntheticData (fresh sv) None, log).
Proof.
  intros Hc. unfold SyntheticData_init. cbn [default from_option id].
  erewrite bind_Ok; cycle 1.
  { apply inherited_run. apply __init___defaults. }
  erewrite bind_Ok; cycle 1.
  { apply inherited_run. reflexivity. }
  cbn [dclean blank_synthetic].
  rewrite (set_dclean_array _ sv) by reflexivity. by rewrite decide_False.
Qed.

Lemma synthetic_constructor_bad_dclean_witness :
  SyntheticData_init Example.survey6 None (Some (PyArray [1; 2]%float)) None None
    blank_synthetic [] =
    (Raise (ValueError_length "dclean" (length [1; 2]%float) (survey_nD Example.survey6)),
     mkSyntheticData (fresh Example.survey6) None, []).
Proof.
  apply (synthetic_constructor_bad_dclean Example.survey6 [1; 2]%float).
  vm_compute. lia.
Defined.
